(** * fix_a11y_violations.py: the click-handler detector and rewriter

    A shallow embedding of [src/fix_a11y_violations.py].  Python [str]
    values are modelled as [string] (characters with code points below
    256), a list of lines as [list string], the regular expressions of
    the rewriter as terms of a small regex syntax run by a backtracking
    matcher, and the file system touched by [process_file] as a finite
    map from paths to contents. *)

From Stdlib Require Import String Ascii List Arith Lia Bool.
From stdpp Require Import gmap strings list.
Import ListNotations.

Local Open Scope string_scope.
Local Open Scope list_scope.

(* [simpl] computes string concatenation on constructors. *)
Local Arguments String.append : simpl nomatch.

(** ** Python string primitives *)

Module PyStr.

(** [sub in s] *)
Fixpoint contains (sub s : string) : bool :=
  String.prefix sub s ||
  match s with
  | EmptyString => false
  | String _ s' => contains sub s'
  end.

(** [s.startswith(p)] *)
Definition startswith (p s : string) : bool := String.prefix p s.

(** [s[n:]] *)
Fixpoint drop_str (n : nat) (s : string) : string :=
  match n, s with
  | O, _ => s
  | S _, EmptyString => EmptyString
  | S n', String _ s' => drop_str n' s'
  end.

(** [s.split(sep, 1)[1]], for [s] that contains [sep]: the text after
    the first occurrence of [sep]. *)
Fixpoint after_first (sep s : string) : string :=
  if String.prefix sep s then drop_str (String.length sep) s
  else match s with
       | EmptyString => EmptyString
       | String _ s' => after_first sep s'
       end.

Definition newline : ascii := "010"%char.

(** [s.split('\n')]: never empty, one more piece than there are
    newlines. *)
Fixpoint split_lines (s : string) : list string :=
  match s with
  | EmptyString => [EmptyString]
  | String c s' =>
      if Ascii.eqb c newline then EmptyString :: split_lines s'
      else match split_lines s' with
           | l :: ls => String c l :: ls
           | [] => [String c EmptyString]
           end
  end.

(** ['\n'.join(ls)] *)
Definition join_lines (ls : list string) : string :=
  String.concat (String newline EmptyString) ls.

Definition code_in (lo hi : nat) (c : ascii) : bool :=
  Nat.leb lo (nat_of_ascii c) && Nat.leb (nat_of_ascii c) hi.

(** [c.isspace()], which is also the class [\s] of [re] on [str]
    patterns: TAB..CR, FS..US, space, and in Latin-1 NEL and NBSP. *)
Definition is_space (c : ascii) : bool :=
  code_in 9 13 c || code_in 28 32 c || code_in 133 133 c || code_in 160 160 c.

(** The class [\w] of [re] on [str] patterns: alphanumerics and the
    underscore. *)
Definition is_word (c : ascii) : bool :=
  code_in 48 57 c || code_in 65 90 c || code_in 97 122 c || code_in 95 95 c
  || code_in 170 170 c || code_in 178 179 c || code_in 181 181 c
  || code_in 185 186 c || code_in 188 190 c
  || code_in 192 214 c || code_in 216 246 c || code_in 248 255 c.

(** [s.lstrip()], [s.rstrip()], [s.strip()] *)
Fixpoint lstrip (s : string) : string :=
  match s with
  | EmptyString => EmptyString
  | String c s' => if is_space c then lstrip s' else s
  end.

Fixpoint rstrip (s : string) : string :=
  match s with
  | EmptyString => EmptyString
  | String c s' =>
      match rstrip s' with
      | EmptyString => if is_space c then EmptyString else String c EmptyString
      | r => String c r
      end
  end.

Definition strip (s : string) : string := rstrip (lstrip s).

(** [range(start, stop)] and [range(start, stop, -1)] *)
Definition range_up (start stop : nat) : list nat := seq start (stop - start).

Definition range_down (start stop : nat) : list nat :=
  rev (seq (S stop) (start - stop)).

End PyStr.

(** ** Regular expressions of the [re] module

    Only the constructs the program's four patterns use.  The matcher is
    a backtracking one in continuation-passing style, with the priorities
    of [re]: the left alternative first, as many iterations of a star as
    possible first. *)

Module Re.

Inductive regex : Type :=
| Lit (s : string)
| Cls (p : ascii -> bool)
| Seq (r1 r2 : regex)
| Alt (r1 r2 : regex)
| Star (r : regex)
| Grp (r : regex)
| Bol
| WordB.

(** The cursor: the character before it (none at the start of the
    subject), the text after it, and what group 1 holds. *)
Record mstate : Type := MState {
  before : option ascii;
  rest : string;
  grp1 : option string
}.

Definition step (st : mstate) : option (ascii * mstate) :=
  match rest st with
  | EmptyString => None
  | String c s' => Some (c, MState (Some c) s' (grp1 st))
  end.

Fixpoint match_lit (s : string) (st : mstate) : option mstate :=
  match s with
  | EmptyString => Some st
  | String c s' =>
      match step st with
      | Some (c', st') => if Ascii.eqb c c' then match_lit s' st' else None
      | None => None
      end
  end.

Definition word_at (o : option ascii) : bool :=
  match o with
  | Some c => PyStr.is_word c
  | None => false
  end.

Definition next_char (s : string) : option ascii :=
  match s with
  | EmptyString => None
  | String c _ => Some c
  end.

Definition consumed (st st' : mstate) : string :=
  substring 0 (String.length (rest st) - String.length (rest st')) (rest st).

(** The iterations of a greedy star: one more match of the body if it
    moves the cursor, then the rest of the pattern; [n] bounds the
    iterations by the length of the text left. *)
Fixpoint star_loop {A : Type}
    (body : mstate -> (mstate -> option A) -> option A)
    (k : mstate -> option A) (n : nat) (st : mstate) : option A :=
  match n with
  | O => k st
  | S n' =>
      match body st (fun st' =>
              if Nat.ltb (String.length (rest st')) (String.length (rest st))
              then star_loop body k n' st' else None) with
      | Some x => Some x
      | None => k st
      end
  end.

Fixpoint run {A : Type} (r : regex) (st : mstate) (k : mstate -> option A)
  : option A :=
  match r with
  | Lit s =>
      match match_lit s st with
      | Some st' => k st'
      | None => None
      end
  | Cls p =>
      match step st with
      | Some (c, st') => if p c then k st' else None
      | None => None
      end
  | Seq r1 r2 => run r1 st (fun st' => run r2 st' k)
  | Alt r1 r2 =>
      match run r1 st k with
      | Some x => Some x
      | None => run r2 st k
      end
  | Star r' => star_loop (run r') k (String.length (rest st)) st
  | Grp r' =>
      run r' st (fun st' =>
        k (MState (before st') (rest st') (Some (consumed st st'))))
  | Bol =>
      match before st with
      | None => k st
      | Some _ => None
      end
  | WordB =>
      if xorb (word_at (before st)) (word_at (next_char (rest st)))
      then k st else None
  end.

(** [re.match(r, s)]: a match at the start of [s]. *)
Definition re_match (r : regex) (s : string) : option mstate :=
  run r (MState None s None) Some.

(** [re.search(r, s)]: the leftmost position where [r] matches. *)
Fixpoint search_at (r : regex) (b : option ascii) (s : string)
  : option mstate :=
  match run r (MState b s None) Some with
  | Some st => Some st
  | None =>
      match s with
      | EmptyString => None
      | String c s' => search_at r (Some c) s'
      end
  end.

Definition re_search (r : regex) (s : string) : option mstate :=
  search_at r None s.

(** [m.group(1)] of a match in which group 1 took part. *)
Definition group1 (st : mstate) : string :=
  match grp1 st with
  | Some g => g
  | None => EmptyString
  end.

Definition matched (o : option mstate) : bool :=
  match o with
  | Some _ => true
  | None => false
  end.

(** [a|b|...] over literals. *)
Fixpoint alts (l : list string) : regex :=
  match l with
  | [] => Cls (fun _ => false)
  | [s] => Lit s
  | s :: l' => Alt (Lit s) (alts l')
  end.

End Re.

(** ** The program *)

Import PyStr Re.

(** [lines[j]]; every index the program uses is within the list. *)
Definition line_at (lines : list string) (j : nat) : string :=
  nth j lines EmptyString.

(** *** has_onclick_without_keyboard *)

(** The value of [tag_start] after the backward scan, [None] when the
    scan found no tag. *)
Inductive tag_kind : Type :=
| button_or_link
| needs_fix.

Definition is_button_or_link (l : string) : bool :=
  contains "<button" l || contains "<a " l || contains "<a>" l.

Definition is_fixable_tag (l : string) : bool :=
  contains "<div" l || contains "<span" l || contains "<li" l
  || contains "<td" l || contains "<tr" l.

(** The loop [for j in range(i, max(0, i-10), -1)] with its two
    [break]s. *)
Fixpoint scan_tag (lines : list string) (js : list nat) : option tag_kind :=
  match js with
  | [] => None
  | j :: js' =>
      if is_button_or_link (line_at lines j) then Some button_or_link
      else if is_fixable_tag (line_at lines j) then Some needs_fix
      else scan_tag lines js'
  end.

Definition has_keyboard_marker (l : string) : bool :=
  contains "onKeyDown=" l || contains "onKeyPress=" l.

(** The loop [for j in range(max(0, i-5), min(len(lines), i+5))]. *)
Definition keyboard_nearby (lines : list string) (i : nat) : bool :=
  existsb (fun j => has_keyboard_marker (line_at lines j))
          (range_up (Nat.max 0 (i - 5)) (Nat.min (length lines) (i + 5))).

(** The body of the outer loop: does line [i] make the function return
    [True]? *)
Definition violation_at (lines : list string) (i : nat) : bool :=
  if contains "onClick=" (line_at lines i) then
    match scan_tag lines (range_down i (Nat.max 0 (i - 10))) with
    | Some needs_fix => negb (keyboard_nearby lines i)
    | _ => false
    end
  else false.

Definition has_onclick_without_keyboard (content : string) : bool :=
  let lines := split_lines content in
  existsb (violation_at lines) (seq 0 (length lines)).

(** *** fix_onclick_violations *)

Definition re_non_interactive : regex :=
  Seq (Lit "<")
      (Grp (alts ["div"; "span"; "li"; "td"; "tr"; "th"; "p"; "section";
                  "article"; "main"; "nav"; "header"; "footer"])).

Definition re_interactive : regex :=
  Seq (Lit "<") (Seq (Grp (alts ["button"; "a"])) WordB).

Definition re_indent : regex := Seq Bol (Grp (Star (Cls is_space))).

Definition not_rbrace (c : ascii) : bool := negb (Ascii.eqb c "}"%char).

Definition re_onclick : regex :=
  Seq (Lit "onClick={")
      (Seq (Grp (Seq (Star (Cls not_rbrace))
                     (Seq (Star (Seq (Lit "{")
                                     (Seq (Star (Cls not_rbrace)) (Lit "}"))))
                          (Star (Cls not_rbrace)))))
           (Lit "}")).

(** The backward loop of the rewriter: [(is_non_interactive, tag_indent)]
    when it ends. *)
Fixpoint find_tag (lines : list string) (js : list nat) : bool * string :=
  match js with
  | [] => (false, EmptyString)
  | j :: js' =>
      if matched (re_search re_non_interactive (line_at lines j)) then
        (true,
         match re_match re_indent (line_at lines j) with
         | Some m => group1 m
         | None => EmptyString
         end)
      else if matched (re_search re_interactive (line_at lines j)) then
        (false, EmptyString)
      else find_tag lines js'
  end.

Definition dquote : string := String "034"%char EmptyString.

Definition key_guard : string :=
  "onKeyDown={(e) => { if (e.key === 'Enter' || e.key === ' ') { e.preventDefault(); ".

Definition keyboard_handler (onclick_handler : string) : string :=
  if startswith "()" onclick_handler || startswith "(e)" onclick_handler then
    let func_call :=
      if contains "=>" onclick_handler
      then strip (after_first "=>" onclick_handler)
      else onclick_handler in
    key_guard +:+ func_call +:+ " } }}"
  else
    key_guard +:+ "(" +:+ onclick_handler +:+ ")(e) } }}".

Definition role_line (indent_str : string) : string :=
  indent_str +:+ "role=" +:+ dquote +:+ "button" +:+ dquote.

Definition tabindex_line (indent_str : string) : string :=
  indent_str +:+ "tabIndex={0}".

Definition attr_nearby (marker : string) (lines : list string) (i : nat)
  : bool :=
  existsb (fun j => contains marker (line_at lines j))
          (range_up (Nat.max 0 (i - 5)) (Nat.min (length lines) (i + 5))).

(** What one iteration of the [while] loop appends to [result]. *)
Definition fix_line (lines : list string) (i : nat) : list string :=
  let line := line_at lines i in
  if contains "onClick=" line && negb (contains "onKeyDown=" line) then
    let '(is_non_interactive, tag_indent) :=
      find_tag lines (range_down i (Nat.max 0 (i - 10))) in
    if is_non_interactive then
      match re_search re_onclick line with
      | Some onclick_match =>
          let onclick_handler := strip (group1 onclick_match) in
          let has_role := attr_nearby "role=" lines i in
          let has_tabindex := attr_nearby "tabIndex=" lines i in
          let indent_str :=
            match re_match re_indent line with
            | Some indent => group1 indent
            | None => tag_indent +:+ "  "
            end in
          [line; indent_str +:+ keyboard_handler onclick_handler]
            ++ (if has_role then [] else [role_line indent_str])
            ++ (if has_tabindex then [] else [tabindex_line indent_str])
      | None => [line]
      end
    else [line]
  else [line].

(** The [while i < len(lines)] loop: [todo] is [len(lines) - i], and
    every iteration ends in [i += 1]. *)
Fixpoint fix_loop (lines : list string) (todo i : nat) (result : list string)
  : list string :=
  match todo with
  | O => result
  | S todo' => fix_loop lines todo' (S i) (result ++ fix_line lines i)
  end.

Definition fix_lines (lines : list string) : list string :=
  fix_loop lines (length lines) 0 [].

Definition fix_onclick_violations (content : string) : string :=
  join_lines (fix_lines (split_lines content)).

(** *** process_file *)

(** The files of the tree: contents by path.  Reading a path that is
    not there raises, and the [except] clause turns that into a result. *)
Definition process_file (fs : gmap string string) (file_path : string)
  : gmap string string * (bool * string) :=
  match fs !! file_path with
  | None =>
      (fs, (false, "Error: [Errno 2] No such file or directory: '"
                     +:+ file_path +:+ "'"))
  | Some content =>
      if negb (has_onclick_without_keyboard content) then
        (fs, (false, "No violations found"))
      else
        let fixed_content := fix_onclick_violations content in
        if negb (String.eqb fixed_content content) then
          (<[file_path := fixed_content]> fs, (true, "Fixed"))
        else (fs, (false, "No changes needed"))
  end.

(** *** find_tsx_files *)

(** [root_dir.glob(pattern)] is the file system's answer, taken as the
    function [glob] from a pattern to the paths found, each as [str(f)]. *)
Definition find_tsx_files (glob : string -> list string) : list string :=
  let files :=
    fold_left (fun files pattern => files ++ glob pattern)
              ["**/*.tsx"; "**/*.ts"] [] in
  List.filter
    (fun f => negb (contains "node_modules" f)
              && negb (contains ".next" f)
              && negb (contains "dist" f))
    files.

(** *** main *)

(** The [for file_path in files] loop of [main]: the files of the tree,
    [fixed_count], and the paths for which a line is printed, in the
    order of printing. *)
Fixpoint main_loop (fs : gmap string string) (files : list string)
    (fixed_count : nat) (printed : list string)
  : gmap string string * (nat * list string) :=
  match files with
  | [] => (fs, (fixed_count, printed))
  | file_path :: files' =>
      let '(fs', (was_fixed, _)) := process_file fs file_path in
      if was_fixed
      then main_loop fs' files' (fixed_count + 1) (printed ++ [file_path])
      else main_loop fs' files' fixed_count printed
  end.

Definition main (glob : string -> list string) (fs : gmap string string)
  : gmap string string * (nat * list string) :=
  main_loop fs (find_tsx_files glob) 0 [].

(** ** Vocabulary of the statements *)

(** Every character of [s] satisfies [p]. *)
Fixpoint str_all (p : ascii -> bool) (s : string) : bool :=
  match s with
  | EmptyString => true
  | String c s' => p c && str_all p s'
  end.

Definition not_newline (c : ascii) : bool := negb (Ascii.eqb c newline).

(** A piece of text that lies within one line. *)
Definition one_line (s : string) : Prop := str_all not_newline s = true.

Definition nl : string := String newline EmptyString.

(** [text ls]: the lines [ls] as a file's content. *)
Definition text (ls : list string) : string := join_lines ls.

(** A cursor of the matcher over text of the class [p]: what is left of
    the subject and what group 1 holds are made of such characters. *)
Definition st_ok (p : ascii -> bool) (st : mstate) : Prop :=
  str_all p (rest st) = true /\ str_all p (group1 st) = true.

(** The character before the cursor once it has moved over [s]. *)
Fixpoint before_after (b : option ascii) (s : string) : option ascii :=
  match s with
  | EmptyString => b
  | String c s' => before_after (Some c) s'
  end.

(** [s] is empty or starts with a character outside the class [q]. *)
Definition starts_outside (q : ascii -> bool) (s : string) : bool :=
  match s with
  | EmptyString => true
  | String c _ => negb (q c)
  end.

(** The order of tag markers above a click line, as the detector's
    line scan meets them: going up from line [i] (itself included), a
    line that holds [<button], [<a ] or [<a>] comes before any line that
    holds one of [<div], [<span], [<li], [<td], [<tr]; a line with
    markers of both kinds counts for the first kind. *)
Definition interactive_marker_first (lines : list string) (i : nat) : Prop :=
  exists j, j <= i /\ is_button_or_link (line_at lines j) = true /\
    forall k, j < k <= i -> is_fixable_tag (line_at lines k) = false.

Definition clicks_below_interactive_marker (lines : list string) : Prop :=
  forall i, i < length lines ->
    contains "onClick=" (line_at lines i) = true ->
    interactive_marker_first lines i.

(** Following the words of the specification, not the detector: the
    click handlers of a text are all inside [<button>]/[<a>] elements
    when every occurrence of [onClick=] stands among the attributes of an
    opening tag whose name is [button] or [a].  [tag_name s] is the name
    that starts [s]; [clicks_in_tags open_tag s] reads [s] from left to
    right, [open_tag] being the name of the tag that is open at the
    cursor: a [<] opens a tag and a [>] closes it. *)
Fixpoint tag_name (s : string) : string :=
  match s with
  | EmptyString => EmptyString
  | String c s' => if is_word c then String c (tag_name s') else EmptyString
  end.

Fixpoint clicks_in_tags (open_tag : option string) (s : string) : bool :=
  (if String.prefix "onClick=" s
   then match open_tag with
        | Some name => String.eqb name "button" || String.eqb name "a"
        | None => false
        end
   else true)
  && match s with
     | EmptyString => true
     | String c s' =>
         clicks_in_tags
           (if Ascii.eqb c "<" then Some (tag_name s')
            else if Ascii.eqb c ">" then None
            else open_tag)
           s'
     end.

Definition only_clicks_in_button_or_link (content : string) : bool :=
  clicks_in_tags None content.

(** Sample files.  [click_in tag] has a click handler on an element
    [tag] that opens on its second line; [tall_tag lead n] opens a
    [div] after the lines [lead] and has its click handler [n + 1]
    lines below the tag. *)
Definition click_in (tag : string) : string :=
  text ["return ("; "<" +:+ tag +:+ " onClick={go}>"].

Definition tall_tag (lead : list string) (n : nat) : string :=
  text (lead ++ ["<div"] ++ repeat "  data-row" n ++ ["  onClick={go}>"]).

Definition scenario_a : string := "<div onClick={() => doThing()}>".

Definition nested_click : string := "  <div onClick={() => { if (a) { b() } }}>".

Definition keypress_click : string := "<div onClick={f} onKeyPress={g}>".

Definition plain_click : string := "  <div onClick={handleClick}>".

(** A button whose click handler shares its line with a child [span];
    a link whose tag name ends its line, inside a [div]; and three click
    handlers below the three interactive markers. *)
Definition child_tag_click : string :=
  text ["<li>"; "<button"; "  onClick={save}><span>Save</span>";
        "</button>"; "</li>"].

Definition link_at_line_end : string :=
  text ["<section>"; "<div>"; "<a"; "  onClick={go}>"; "</a>"; "</div>"].

Definition interactive_clicks : string :=
  text ["<div>"; "  <button"; "    onClick={save}>";
        "  <a href=x onClick={go}>"; "  <a>"; "    <b onClick={up}>";
        "</div>"].

(** ** Strings: substrings, lines and joins *)

Section StringFacts.

Lemma app_str_assoc (a b c : string) : (a +:+ b) +:+ c = a +:+ (b +:+ c).
Proof. induction a as [|x a IH]; simpl; [reflexivity | now rewrite IH]. Qed.

Lemma app_str_nil_r (a : string) : a +:+ EmptyString = a.
Proof. induction a as [|x a IH]; simpl; [reflexivity | now rewrite IH]. Qed.

Lemma prefix_app (p t : string) : String.prefix p (p +:+ t) = true.
Proof.
  induction p as [|x p IH]; simpl.
  - now destruct t.
  - destruct (ascii_dec x x) as [_|n]; [exact IH | now destruct n].
Qed.

Lemma prefix_inv (p s : string) :
  String.prefix p s = true -> exists t, s = p +:+ t.
Proof.
  revert s; induction p as [|x p IH]; intros s H.
  - now exists s.
  - destruct s as [|y s]; simpl in H; [discriminate|].
    destruct (ascii_dec x y) as [->|_]; [|discriminate].
    destruct (IH _ H) as [t ->]. now exists t.
Qed.

Lemma contains_prefix (sub s : string) :
  String.prefix sub s = true -> contains sub s = true.
Proof. intros H. destruct s; cbn [contains]; now rewrite H. Qed.

Lemma contains_intro (sub a b : string) : contains sub (a +:+ sub +:+ b) = true.
Proof.
  induction a as [|x a IH].
  - apply contains_prefix. exact (prefix_app sub b).
  - cbn [String.append contains]. rewrite IH. apply orb_true_r.
Qed.

Lemma contains_inv (sub s : string) :
  contains sub s = true -> exists a b, s = a +:+ sub +:+ b.
Proof.
  induction s as [|x s IH]; cbn [contains]; intros H.
  - rewrite orb_false_r in H. destruct (prefix_inv _ _ H) as [t ->].
    now exists EmptyString, t.
  - apply orb_true_iff in H as [H|H].
    + destruct (prefix_inv _ _ H) as [t ->]. now exists EmptyString, t.
    + destruct (IH H) as (a & b & ->). now exists (String x a), b.
Qed.

(** A marker absent from a text is absent from each of its pieces. *)
Lemma contains_within (sub a l b : string) :
  contains sub (a +:+ l +:+ b) = false -> contains sub l = false.
Proof.
  intros H. destruct (contains sub l) eqn:E; [|reflexivity].
  destruct (contains_inv _ _ E) as (a' & b' & ->).
  rewrite <- H. symmetry.
  replace (a +:+ (a' +:+ sub +:+ b') +:+ b)
    with ((a +:+ a') +:+ sub +:+ (b' +:+ b))
    by now rewrite !app_str_assoc.
  apply contains_intro.
Qed.

Lemma split_lines_nonempty (s : string) : split_lines s <> [].
Proof.
  induction s as [|c s IH]; simpl; [discriminate|].
  destruct (Ascii.eqb c newline); [discriminate|].
  now destruct (split_lines s).
Qed.

Lemma split_lines_within (s l : string) :
  In l (split_lines s) -> exists a b, s = a +:+ l +:+ b.
Proof.
  revert l; induction s as [|c s IH]; simpl; intros l H.
  - destruct H as [<-|[]]. now exists EmptyString, EmptyString.
  - destruct (Ascii.eqb c newline) eqn:E.
    + destruct H as [<-|H].
      * now exists EmptyString, (String c s).
      * destruct (IH _ H) as (a & b & ->). now exists (String c a), b.
    + destruct (split_lines s) as [|l0 ls] eqn:Es.
      * now destruct (split_lines_nonempty s).
      * destruct H as [<-|H].
        -- destruct (IH l0 (or_introl eq_refl)) as (a & b & Hs).
           (* the first line starts the text *)
           assert (Hpre : exists b', s = l0 +:+ b').
           { clear -Es. revert l0 ls Es.
             induction s as [|d s IHs]; simpl; intros l0 ls Es.
             - injection Es as <- _. now exists EmptyString.
             - destruct (Ascii.eqb d newline).
               + injection Es as <- _. now exists (String d s).
               + destruct (split_lines s) as [|l1 ls1] eqn:E1.
                 * injection Es as <- _. exists s. now destruct s.
                 * injection Es as <- _.
                   destruct (IHs _ _ eq_refl) as [b' ->]. now exists b'. }
           destruct Hpre as [b' ->]. now exists EmptyString, b'.
        -- destruct (IH l (or_intror H)) as (a & b & ->).
           now exists (String c a), b.
Qed.

Lemma join_split (s : string) : join_lines (split_lines s) = s.
Proof.
  unfold join_lines.
  induction s as [|c s IH]; simpl; [reflexivity|].
  destruct (Ascii.eqb c newline) eqn:E.
  - apply Ascii.eqb_eq in E as ->.
    pose proof (split_lines_nonempty s) as Hne.
    destruct (split_lines s) as [|l ls]; [now destruct Hne|].
    change (String.concat (String newline EmptyString) (EmptyString :: l :: ls))
      with (String newline (String.concat (String newline EmptyString) (l :: ls))).
    now rewrite IH.
  - destruct (split_lines s) as [|l ls] eqn:Es.
    + now destruct (split_lines_nonempty s).
    + rewrite <- IH. now destruct ls.
Qed.

Lemma split_one_line (l : string) : one_line l -> split_lines l = [l].
Proof.
  unfold one_line, not_newline. induction l as [|c l IH]; simpl; intros H.
  - reflexivity.
  - apply andb_true_iff in H as [Hc Hl].
    destruct (Ascii.eqb c newline); [discriminate|]. now rewrite (IH Hl).
Qed.

Lemma split_line_then (l s : string) :
  one_line l -> split_lines (l +:+ nl +:+ s) = l :: split_lines s.
Proof.
  unfold one_line, not_newline. induction l as [|c l IH]; intros H.
  - reflexivity.
  - simpl in H. apply andb_true_iff in H as [Hc Hl].
    cbn [String.append split_lines].
    destruct (Ascii.eqb c newline); [discriminate|]. now rewrite (IH Hl).
Qed.

Lemma split_join (ls : list string) :
  ls <> [] -> Forall one_line ls -> split_lines (join_lines ls) = ls.
Proof.
  unfold join_lines. induction ls as [|l ls IH]; intros Hne Hall; [easy|].
  apply Forall_cons_iff in Hall as [Hl Hls].
  destruct ls as [|l' ls'].
  - simpl. now apply split_one_line.
  - cbn [String.concat]. fold nl. rewrite split_line_then by exact Hl.
    f_equal. now apply IH.
Qed.

Lemma split_lines_one_line (s : string) : Forall one_line (split_lines s).
Proof.
  induction s as [|c s IH]; simpl.
  - now repeat constructor.
  - destruct (Ascii.eqb c newline) eqn:E.
    + constructor; [reflexivity | exact IH].
    + assert (Hc : not_newline c = true) by (unfold not_newline; now rewrite E).
      destruct (split_lines s) as [|l ls].
      * constructor; [|constructor]. unfold one_line. simpl. now rewrite Hc.
      * apply Forall_cons_iff in IH as [Hl Hls]. constructor; [|exact Hls].
        unfold one_line in *. simpl. now rewrite Hc.
Qed.

End StringFacts.

(** ** Characters that pass through: a class of characters closed under
    the string operations and the matcher *)

Section Characters.

Variable p : ascii -> bool.

Lemma str_all_app (a b : string) :
  str_all p (a +:+ b) = str_all p a && str_all p b.
Proof.
  induction a as [|x a IH]; simpl; [reflexivity|].
  now rewrite IH, andb_assoc.
Qed.

Lemma str_all_substring (s : string) :
  str_all p s = true -> forall n m, str_all p (substring n m s) = true.
Proof.
  induction s as [|c s IH]; intros H n m.
  - now destruct n, m.
  - simpl in H. apply andb_true_iff in H as [Hc Hs].
    destruct n as [|n]; simpl.
    + destruct m as [|m]; simpl; [reflexivity|]. now rewrite Hc, IH.
    + now apply IH.
Qed.

Lemma str_all_drop (n : nat) (s : string) :
  str_all p s = true -> str_all p (drop_str n s) = true.
Proof.
  revert s; induction n as [|n IH]; intros [|c s] H; simpl; trivial.
  simpl in H. apply andb_true_iff in H as [_ Hs]. now apply IH.
Qed.

Lemma str_all_after_first (sep s : string) :
  str_all p s = true -> str_all p (after_first sep s) = true.
Proof.
  induction s as [|c s IH]; intros H; cbn [after_first].
  - destruct (String.prefix sep EmptyString); [|reflexivity].
    now apply str_all_drop.
  - destruct (String.prefix sep (String c s)).
    + now apply str_all_drop.
    + simpl in H. apply andb_true_iff in H as [_ Hs]. now apply IH.
Qed.

Lemma str_all_lstrip (s : string) :
  str_all p s = true -> str_all p (lstrip s) = true.
Proof.
  induction s as [|c s IH]; intros H; simpl; [reflexivity|].
  destruct (is_space c); [|exact H].
  simpl in H. apply andb_true_iff in H as [_ Hs]. now apply IH.
Qed.

Lemma str_all_rstrip (s : string) :
  str_all p s = true -> str_all p (rstrip s) = true.
Proof.
  induction s as [|c s IH]; intros H; simpl; [reflexivity|].
  simpl in H. apply andb_true_iff in H as [Hc Hs]. specialize (IH Hs).
  destruct (rstrip s) as [|d r].
  - destruct (is_space c); simpl; [reflexivity | now rewrite Hc].
  - simpl in *. now rewrite Hc, IH.
Qed.

Lemma str_all_strip (s : string) :
  str_all p s = true -> str_all p (strip s) = true.
Proof. intros H. now apply str_all_rstrip, str_all_lstrip. Qed.

Lemma step_ok (st st' : mstate) (c : ascii) :
  step st = Some (c, st') -> st_ok p st -> st_ok p st'.
Proof.
  unfold step, st_ok, group1. destruct st as [b [|d s] g]; simpl; [easy|].
  intros [= <- <-] [H Hg]. simpl.
  apply andb_true_iff in H as [_ Hs]. now split.
Qed.

Lemma match_lit_ok (s : string) :
  forall st st', match_lit s st = Some st' -> st_ok p st -> st_ok p st'.
Proof.
  induction s as [|c s IH]; simpl; intros st st' H Hok.
  - now injection H as <-.
  - destruct (step st) as [[c' st1]|] eqn:E; [|discriminate].
    destruct (Ascii.eqb c c'); [|discriminate].
    eapply IH; [exact H|]. eapply step_ok; eauto.
Qed.

Lemma star_loop_ok {A : Type}
    (body : mstate -> (mstate -> option A) -> option A) :
  (forall st k x, body st k = Some x -> st_ok p st ->
     exists st', st_ok p st' /\ k st' = Some x) ->
  forall k n st x, star_loop body k n st = Some x -> st_ok p st ->
    exists st', st_ok p st' /\ k st' = Some x.
Proof.
  intros Hbody k n. induction n as [|n IH]; simpl; intros st x H Hok.
  - eauto.
  - destruct (body st _) as [y|] eqn:E.
    + injection H as ->.
      destruct (Hbody _ _ _ E Hok) as (st1 & Hok1 & Hk).
      destruct (Nat.ltb _ _); [|discriminate]. eauto.
    + eauto.
Qed.

Lemma run_ok {A : Type} (r : regex) :
  forall st (k : mstate -> option A) x, run r st k = Some x -> st_ok p st ->
    exists st', st_ok p st' /\ k st' = Some x.
Proof.
  induction r as [s|q|r1 IH1 r2 IH2|r1 IH1 r2 IH2|r IH|r IH| |];
    cbn [run]; intros st k x H Hok.
  - destruct (match_lit s st) as [st'|] eqn:E; [|discriminate].
    exists st'. split; [eapply match_lit_ok; eauto | exact H].
  - destruct (step st) as [[c st']|] eqn:E; [|discriminate].
    destruct (q c); [|discriminate].
    exists st'. split; [eapply step_ok; eauto | exact H].
  - destruct (IH1 _ _ _ H Hok) as (st1 & Hok1 & H1). eauto.
  - destruct (run r1 st k) as [y|] eqn:E.
    + injection H as ->. eauto.
    + eauto.
  - eapply star_loop_ok; eauto.
  - destruct (IH _ _ _ H Hok) as (st1 & [Hr1 Hg1] & H1).
    eexists; split; [|exact H1]. split; simpl; [exact Hr1|].
    unfold group1, consumed; simpl. apply str_all_substring, Hok.
  - destruct (before st); [discriminate|]. eauto.
  - destruct (xorb _ _); [|discriminate]. eauto.
Qed.

Lemma re_match_group (r : regex) (s : string) (m : mstate) :
  str_all p s = true -> re_match r s = Some m -> str_all p (group1 m) = true.
Proof.
  intros Hs H. unfold re_match in H.
  destruct (run_ok r _ _ _ H) as (st' & [_ Hg] & [= ->]); [now split|].
  exact Hg.
Qed.

Lemma search_at_group (r : regex) (s : string) :
  forall b m, str_all p s = true -> search_at r b s = Some m ->
    str_all p (group1 m) = true.
Proof.
  induction s as [|c s IH]; intros b m Hs H; simpl in H.
  - destruct (run r _ Some) as [st|] eqn:E; [|discriminate].
    injection H as ->.
    destruct (run_ok r _ _ _ E) as (st' & [_ Hg] & [= ->]); [now split|].
    exact Hg.
  - destruct (run r _ Some) as [st|] eqn:E.
    + injection H as ->.
      destruct (run_ok r _ _ _ E) as (st' & [_ Hg] & [= ->]); [now split|].
      exact Hg.
    + simpl in Hs. apply andb_true_iff in Hs as [_ Hs]. eauto.
Qed.

Lemma re_search_group (r : regex) (s : string) (m : mstate) :
  str_all p s = true -> re_search r s = Some m -> str_all p (group1 m) = true.
Proof. intros Hs H. eapply search_at_group; eauto. Qed.

End Characters.

(** ** The rewriter, line by line *)

Section Rewriter.

Lemma fix_loop_flat_map (lines : list string) (todo : nat) :
  forall i result,
    fix_loop lines todo i result
    = result ++ flat_map (fix_line lines) (seq i todo).
Proof.
  induction todo as [|todo IH]; intros i result; simpl.
  - now rewrite app_nil_r.
  - now rewrite IH, <- app_assoc.
Qed.

Lemma fix_lines_flat_map (lines : list string) :
  fix_lines lines = flat_map (fix_line lines) (seq 0 (length lines)).
Proof. unfold fix_lines. now rewrite fix_loop_flat_map. Qed.

Lemma lines_by_index (lines : list string) :
  map (line_at lines) (seq 0 (length lines)) = lines.
Proof.
  induction lines as [|l lines IH]; [reflexivity|].
  cbn [length seq map]. rewrite <- seq_shift, map_map.
  unfold line_at in *. simpl. now rewrite IH.
Qed.

(** Every iteration appends the line it looks at first. *)
Lemma fix_line_head (lines : list string) (i : nat) :
  exists extra, fix_line lines i = line_at lines i :: extra.
Proof.
  unfold fix_line.
  destruct (contains "onClick=" _ && negb _); [|now exists []].
  destruct (find_tag lines _) as [[|] tag_indent]; [|now exists []].
  destruct (re_search re_onclick _); [|now exists []].
  eexists. reflexivity.
Qed.

Lemma fix_line_no_click (lines : list string) (i : nat) :
  contains "onClick=" (line_at lines i) = false ->
  fix_line lines i = [line_at lines i].
Proof. intros H. unfold fix_line. now rewrite H. Qed.

Lemma fix_line_keydown (lines : list string) (i : nat) :
  contains "onKeyDown=" (line_at lines i) = true ->
  fix_line lines i = [line_at lines i].
Proof. intros H. unfold fix_line. now rewrite H, andb_false_r. Qed.

Lemma flat_map_sublist (f : nat -> list string) (g : nat -> string)
    (js : list nat) :
  (forall j, exists extra, f j = g j :: extra) ->
  sublist (map g js) (flat_map f js).
Proof.
  intros H. induction js as [|j js IH]; simpl; [constructor|].
  destruct (H j) as [extra ->]. simpl. constructor.
  now apply sublist_inserts_l.
Qed.

Lemma flat_map_singletons (f : nat -> list string) (g : nat -> string)
    (js : list nat) :
  (forall j, In j js -> f j = [g j]) -> flat_map f js = map g js.
Proof.
  induction js as [|j js IH]; intros H; simpl; [reflexivity|].
  rewrite (H j) by now left. simpl. f_equal. apply IH.
  intros j' Hj'. apply H. now right.
Qed.

Lemma fix_lines_sublist (lines : list string) :
  sublist lines (fix_lines lines).
Proof.
  rewrite fix_lines_flat_map. rewrite <- (lines_by_index lines) at 1.
  apply flat_map_sublist, fix_line_head.
Qed.

Lemma line_at_one_line (lines : list string) (j : nat) :
  Forall one_line lines -> one_line (line_at lines j).
Proof.
  intros H. unfold line_at. revert j.
  induction H as [|l ls Hl _ IH]; intros [|j]; simpl; trivial; reflexivity.
Qed.

Lemma line_at_In (lines : list string) (j : nat) :
  j < length lines -> In (line_at lines j) lines.
Proof. intros H. now apply nth_In. Qed.

Lemma find_tag_one_line (lines : list string) (js : list nat) :
  Forall one_line lines -> one_line (snd (find_tag lines js)).
Proof.
  intros H. induction js as [|j js IH]; simpl; [reflexivity|].
  destruct (matched (re_search re_non_interactive _)); simpl.
  - destruct (re_match re_indent _) as [m|] eqn:E; [|reflexivity].
    eapply re_match_group; [|exact E]. now apply line_at_one_line.
  - destruct (matched (re_search re_interactive _)); [reflexivity | exact IH].
Qed.

Lemma one_line_app (a b : string) :
  one_line a -> one_line b -> one_line (a +:+ b).
Proof.
  unfold one_line. intros Ha Hb. now rewrite str_all_app, Ha, Hb.
Qed.

Lemma keyboard_handler_one_line (h : string) :
  one_line h -> one_line (keyboard_handler h).
Proof.
  intros Hh. unfold keyboard_handler.
  destruct (startswith "()" h || startswith "(e)" h).
  - repeat apply one_line_app; try reflexivity.
    destruct (contains "=>" h); [|exact Hh].
    now apply str_all_strip, str_all_after_first.
  - repeat apply one_line_app; try reflexivity. exact Hh.
Qed.

(** Every line the rewriter appends lies within one line of text. *)
Lemma fix_line_one_line (lines : list string) (i : nat) :
  Forall one_line lines -> Forall one_line (fix_line lines i).
Proof.
  intros H. pose proof (line_at_one_line lines i H) as Hl.
  unfold fix_line.
  destruct (contains "onClick=" _ && negb _); [|now repeat constructor].
  pose proof (find_tag_one_line lines (range_down i (Nat.max 0 (i - 10))) H)
    as Ht.
  destruct (find_tag lines _) as [[|] tag_indent]; [|now repeat constructor].
  simpl in Ht.
  destruct (re_search re_onclick _) as [om|] eqn:Eo; [|now repeat constructor].
  assert (Hind : one_line
            match re_match re_indent (line_at lines i) with
            | Some indent => group1 indent
            | None => tag_indent +:+ "  "
            end).
  { destruct (re_match re_indent _) as [im|] eqn:Ei.
    - eapply re_match_group; [exact Hl | exact Ei].
    - now apply one_line_app. }
  assert (Hh : one_line (strip (group1 om))).
  { apply str_all_strip. eapply re_search_group; [exact Hl | exact Eo]. }
  constructor; [exact Hl|]. constructor.
  { apply one_line_app; [exact Hind|]. now apply keyboard_handler_one_line. }
  apply Forall_app. split.
  - destruct (attr_nearby "role=" lines i); constructor; [|constructor].
    unfold role_line. repeat apply one_line_app; try reflexivity. exact Hind.
  - destruct (attr_nearby "tabIndex=" lines i); constructor; [|constructor].
    unfold tabindex_line. now apply one_line_app.
Qed.

Lemma fix_lines_one_line (lines : list string) :
  Forall one_line lines -> Forall one_line (fix_lines lines).
Proof.
  intros H. rewrite fix_lines_flat_map.
  induction (seq 0 (length lines)) as [|j js IH]; simpl; [constructor|].
  apply Forall_app. split; [now apply fix_line_one_line | exact IH].
Qed.

(** The lines of the rewritten text are the lines the loop produced. *)
Lemma split_fix (content : string) :
  split_lines (fix_onclick_violations content)
  = fix_lines (split_lines content).
Proof.
  unfold fix_onclick_violations. apply split_join.
  - pose proof (fix_lines_sublist (split_lines content)) as Hs.
    pose proof (split_lines_nonempty content) as Hne.
    intros E. rewrite E in Hs. apply sublist_nil_r in Hs. contradiction.
  - apply fix_lines_one_line, split_lines_one_line.
Qed.

End Rewriter.

(** ** The detector's backward scan *)

Section Detector.

Lemma range_down_empty (i stop : nat) : i <= stop -> range_down i stop = [].
Proof.
  intros H. unfold range_down. now replace (i - stop) with 0 by lia.
Qed.

Lemma range_down_step (i stop : nat) :
  stop <= i -> range_down (S i) stop = S i :: range_down i stop.
Proof.
  intros H. unfold range_down.
  replace (S i - stop) with (S (i - stop)) by lia.
  rewrite seq_S, rev_app_distr. simpl. f_equal. lia.
Qed.

Lemma range_down_bounds (i stop j : nat) :
  In j (range_down i stop) <-> stop < j <= i.
Proof.
  unfold range_down. rewrite <- in_rev, in_seq. lia.
Qed.

(** When the scan stops on a tag that needs a fix, no line from there
    down to the click line has an interactive tag marker. *)
Lemma scan_tag_needs_fix (lines : list string) (stop : nat) :
  forall i, scan_tag lines (range_down i stop) = Some needs_fix ->
    exists k, stop < k <= i
      /\ is_fixable_tag (line_at lines k) = true
      /\ forall k', k <= k' <= i -> is_button_or_link (line_at lines k') = false.
Proof.
  induction i as [|i IH]; intros H.
  - rewrite range_down_empty in H by lia. discriminate.
  - destruct (Nat.le_gt_cases (S i) stop) as [Hle|Hgt].
    + rewrite range_down_empty in H by exact Hle. discriminate.
    + rewrite range_down_step in H by lia. simpl in H.
      destruct (is_button_or_link (line_at lines (S i))) eqn:Eb; [discriminate|].
      destruct (is_fixable_tag (line_at lines (S i))) eqn:Ef.
      * exists (S i). repeat split; try lia; trivial.
        intros k' Hk'. now replace k' with (S i) by lia.
      * destruct (IH H) as (k & Hk & Hfix & Hno).
        exists k. repeat split; try lia; trivial.
        intros k' Hk'. destruct (Nat.eq_dec k' (S i)) as [->|Hne]; trivial.
        apply Hno. lia.
Qed.

Lemma violation_at_interactive (lines : list string) (i : nat) :
  interactive_marker_first lines i -> violation_at lines i = false.
Proof.
  intros (j & Hj & Hbtn & Hnone). unfold violation_at.
  destruct (contains "onClick=" _); [|reflexivity].
  destruct (scan_tag lines _) as [[|]|] eqn:E; trivial.
  exfalso. destruct (scan_tag_needs_fix _ _ _ E) as (k & Hk & Hfix & Hno).
  destruct (Nat.lt_ge_cases j k) as [Hlt|Hge].
  - rewrite Hnone in Hfix by lia. discriminate.
  - rewrite Hno in Hbtn by lia. discriminate.
Qed.

End Detector.

(** ** The patterns on a click line *)

Section Patterns.

Lemma length_app_str (a b : string) :
  String.length (a +:+ b) = String.length a + String.length b.
Proof. induction a as [|c a IH]; simpl; [reflexivity | now rewrite IH]. Qed.

Lemma substring_app_prefix (a b : string) :
  substring 0 (String.length a) (a +:+ b) = a.
Proof.
  induction a as [|c a IH]; simpl.
  - now destruct b.
  - now rewrite IH.
Qed.

Lemma consumed_app (b b' : option ascii) (g g' : option string) (a t : string) :
  consumed (MState b (a +:+ t) g) (MState b' t g') = a.
Proof.
  unfold consumed; simpl. rewrite length_app_str.
  replace (String.length a + String.length t - String.length t)
    with (String.length a) by lia.
  apply substring_app_prefix.
Qed.

Lemma run_cls_cons {A : Type} (q : ascii -> bool) (k : mstate -> option A)
    (b : option ascii) (c : ascii) (s : string) (g : option string) :
  run (Cls q) (MState b (String c s) g) k
  = if q c then k (MState (Some c) s g) else None.
Proof. reflexivity. Qed.

Lemma star_cls_greedy {A : Type} (q : ascii -> bool) (k : mstate -> option A)
    (tail : string) (g : option string) (x : A) :
  starts_outside q tail = true ->
  forall pre b,
    str_all q pre = true ->
    k (MState (before_after b pre) tail g) = Some x ->
    star_loop (run (Cls q)) k (String.length (pre +:+ tail))
              (MState b (pre +:+ tail) g) = Some x.
Proof.
  intros Htail. induction pre as [|c pre IH]; intros b Hpre Hk.
  - simpl in Hk. change (EmptyString +:+ tail) with tail.
    destruct tail as [|c t]; [exact Hk|].
    simpl in Htail. cbn [String.length star_loop].
    rewrite run_cls_cons. destruct (q c); [discriminate | exact Hk].
  - simpl in Hpre. apply andb_true_iff in Hpre as [Hc Hpre].
    specialize (IH (Some c) Hpre Hk).
    cbn [String.append String.length star_loop].
    rewrite run_cls_cons, Hc. cbn [rest].
    assert (Hlt : Nat.ltb (String.length (pre +:+ tail))
                          (String.length (String c (pre +:+ tail))) = true)
      by (apply Nat.ltb_lt; simpl; lia).
    rewrite Hlt, IH. reflexivity.
Qed.

Lemma str_all_impl (p q : ascii -> bool) (s : string) :
  (forall c, p c = true -> q c = true) ->
  str_all p s = true -> str_all q s = true.
Proof.
  intros Hpq. induction s as [|c s IH]; simpl; [reflexivity|].
  intros H. apply andb_true_iff in H as [Hc Hs]. now rewrite (Hpq c Hc), IH.
Qed.

(** The defining equations of the matcher. *)
Lemma run_Seq {A : Type} (r1 r2 : regex) (st : mstate) (k : mstate -> option A) :
  run (Seq r1 r2) st k = run r1 st (fun st' => run r2 st' k).
Proof. reflexivity. Qed.

Lemma run_Star {A : Type} (r : regex) (st : mstate) (k : mstate -> option A) :
  run (Star r) st k = star_loop (run r) k (String.length (rest st)) st.
Proof. reflexivity. Qed.

Lemma run_Grp {A : Type} (r : regex) (st : mstate) (k : mstate -> option A) :
  run (Grp r) st k
  = run r st (fun st' =>
      k (MState (before st') (rest st') (Some (consumed st st')))).
Proof. reflexivity. Qed.

Lemma run_Bol {A : Type} (s : string) (g : option string)
    (k : mstate -> option A) :
  run Bol (MState None s g) k = k (MState None s g).
Proof. reflexivity. Qed.

Lemma run_Lit {A : Type} (s : string) (st : mstate) (k : mstate -> option A) :
  run (Lit s) st k
  = match match_lit s st with Some st' => k st' | None => None end.
Proof. reflexivity. Qed.

Lemma match_lit_app (s : string) :
  forall b t g,
    match_lit s (MState b (s +:+ t) g) = Some (MState (before_after b s) t g).
Proof.
  induction s as [|c s IH]; intros b t g; [reflexivity|].
  cbn [String.append match_lit]. unfold step. cbn [rest grp1].
  rewrite Ascii.eqb_refl. apply IH.
Qed.

Lemma match_lit_other (x c : ascii) (s' t : string) (b : option ascii)
    (g : option string) :
  Ascii.eqb x c = false ->
  match_lit (String x s') (MState b (String c t) g) = None.
Proof. intros H. cbn [match_lit]. unfold step. cbn [rest]. now rewrite H. Qed.

(** [re_indent] captures the leading whitespace. *)
Lemma re_indent_group (indent tail : string) :
  str_all is_space indent = true ->
  starts_outside is_space tail = true ->
  option_map group1 (re_match re_indent (indent +:+ tail)) = Some indent.
Proof.
  intros Hind Htail. unfold re_match, re_indent.
  rewrite run_Seq, run_Bol, run_Grp, run_Star. cbn [rest].
  erewrite star_cls_greedy; [| exact Htail | exact Hind | reflexivity].
  unfold group1; cbn [option_map grp1 before rest].
  now rewrite consumed_app.
Qed.

(** A pattern that opens with a literal does not match where the text
    starts with another character, so the search moves on. *)
Lemma search_skip (x : ascii) (s' : string) (r : regex) (a : string) :
  str_all (fun c => negb (Ascii.eqb x c)) a = true ->
  forall b tail, exists b',
    search_at (Seq (Lit (String x s')) r) b (a +:+ tail)
    = search_at (Seq (Lit (String x s')) r) b' tail.
Proof.
  induction a as [|c a IH]; intros Ha b tail.
  - now exists b.
  - simpl in Ha. apply andb_true_iff in Ha as [Hc Ha].
    destruct (IH Ha (Some c) tail) as [b' Hb'].
    exists b'. rewrite <- Hb'.
    cbn [String.append search_at].
    rewrite run_Seq, run_Lit, match_lit_other; [reflexivity|].
    now apply negb_true_iff in Hc.
Qed.

(** [re_onclick] where the text starts with the marker: group 1 is the
    text up to the first closing brace, whatever braces open in it. *)
Lemma re_onclick_at (b : option ascii) (arg post : string) :
  str_all not_rbrace arg = true ->
  run re_onclick (MState b ("onClick={" +:+ arg +:+ "}" +:+ post) None) Some
  = Some (MState (Some "}"%char) post (Some arg)).
Proof.
  intros Harg. unfold re_onclick.
  rewrite run_Seq, run_Lit, match_lit_app.
  rewrite run_Seq, run_Grp, run_Seq, run_Star. cbn [rest].
  erewrite star_cls_greedy; [reflexivity | reflexivity | exact Harg |].
  rewrite run_Seq, run_Star. cbn [rest String.append String.length star_loop].
  rewrite run_Seq, run_Lit, match_lit_other by reflexivity.
  rewrite run_Star. cbn [rest String.length star_loop].
  rewrite run_cls_cons.
  change (not_rbrace "}"%char) with false. cbv iota.
  rewrite run_Lit. cbn [before rest].
  rewrite consumed_app. reflexivity.
Qed.

Lemma search_at_hit (r : regex) (b : option ascii) (s : string) (m : mstate) :
  run r (MState b s None) Some = Some m -> search_at r b s = Some m.
Proof. intros H. destruct s; cbn [search_at]; now rewrite H. Qed.

Lemma space_is_not (x : ascii) :
  is_space x = false ->
  forall c, is_space c = true -> negb (Ascii.eqb x c) = true.
Proof.
  intros Hx c Hc. apply negb_true_iff. apply not_true_is_false. intros E.
  apply Ascii.eqb_eq in E. subst c. congruence.
Qed.

Lemma re_search_onclick (a arg post : string) :
  str_all (fun c => negb (Ascii.eqb "o" c)) a = true ->
  str_all not_rbrace arg = true ->
  option_map group1
    (re_search re_onclick (a +:+ "onClick={" +:+ arg +:+ "}" +:+ post))
  = Some arg.
Proof.
  intros Ha Harg. unfold re_search.
  assert (Hskip : exists b',
    search_at re_onclick None (a +:+ "onClick={" +:+ arg +:+ "}" +:+ post)
    = search_at re_onclick b' ("onClick={" +:+ arg +:+ "}" +:+ post))
    by (unfold re_onclick; now apply search_skip).
  destruct Hskip as [b' ->].
  now rewrite (search_at_hit _ _ _ _ (re_onclick_at b' arg post Harg)).
Qed.

Lemma re_search_div (indent tail : string) :
  str_all is_space indent = true ->
  matched (re_search re_non_interactive (indent +:+ "<div" +:+ tail)) = true.
Proof.
  intros Hind. unfold re_search.
  assert (Hskip : exists b',
    search_at re_non_interactive None (indent +:+ "<div" +:+ tail)
    = search_at re_non_interactive b' ("<div" +:+ tail)).
  { unfold re_non_interactive. apply search_skip.
    eapply str_all_impl; [|exact Hind]. now apply space_is_not. }
  destruct Hskip as [b' ->].
  erewrite search_at_hit; reflexivity.
Qed.

(** The rewrite of a click handler on a [div]: on any line but the
    first, whatever the argument holds up to its first closing brace is
    taken as the handler, and the new lines carry the indentation of the
    click line. *)
Theorem fix_line_div_click (lines : list string) (i : nat)
    (indent arg post : string) :
  1 <= i ->
  line_at lines i = indent +:+ "<div onClick={" +:+ arg +:+ "}" +:+ post ->
  str_all is_space indent = true ->
  str_all not_rbrace arg = true ->
  contains "onKeyDown=" (line_at lines i) = false ->
  fix_line lines i
  = [line_at lines i; indent +:+ keyboard_handler (strip arg)]
    ++ (if attr_nearby "role=" lines i then [] else [role_line indent])
    ++ (if attr_nearby "tabIndex=" lines i then []
        else [tabindex_line indent]).
Proof.
  intros Hi Hline Hind Harg Hkd.
  unfold fix_line. rewrite Hkd.
  assert (Hclick : contains "onClick=" (line_at lines i) = true).
  { rewrite Hline.
    change (indent +:+ "<div onClick={" +:+ arg +:+ "}" +:+ post)
      with (indent +:+ "<div " +:+ "onClick=" +:+ "{" +:+ arg +:+ "}" +:+ post).
    rewrite <- (app_str_assoc indent "<div "). apply contains_intro. }
  assert (Htag : matched (re_search re_non_interactive (line_at lines i)) = true).
  { rewrite Hline. exact (re_search_div indent _ Hind). }
  assert (Hindent : option_map group1 (re_match re_indent (line_at lines i))
                    = Some indent).
  { rewrite Hline. now apply re_indent_group. }
  assert (Harg' : option_map group1 (re_search re_onclick (line_at lines i))
                  = Some arg).
  { rewrite Hline.
    change (indent +:+ "<div onClick={" +:+ arg +:+ "}" +:+ post)
      with (indent +:+ "<div " +:+ "onClick={" +:+ arg +:+ "}" +:+ post).
    rewrite <- (app_str_assoc indent "<div ").
    apply re_search_onclick; [|exact Harg].
    rewrite str_all_app. apply andb_true_iff. split; [|reflexivity].
    eapply str_all_impl; [|exact Hind]. now apply space_is_not. }
  rewrite Hclick. cbn [negb andb].
  destruct i as [|i]; [lia|].
  rewrite range_down_step by lia. cbn [find_tag]. rewrite Htag.
  destruct (re_search re_onclick _) as [om|]; [|discriminate].
  destruct (re_match re_indent _) as [im|]; [|discriminate].
  simpl in Hindent, Harg'. injection Hindent as ->. injection Harg' as ->.
  reflexivity.
Qed.

Lemma contains_skip (x : ascii) (s' a t : string) :
  str_all (fun c => negb (Ascii.eqb x c)) a = true ->
  contains (String x s') (a +:+ t) = contains (String x s') t.
Proof.
  induction a as [|c a IH]; intros Ha; [reflexivity|].
  simpl in Ha. apply andb_true_iff in Ha as [Hc Ha].
  cbn [String.append contains String.prefix].
  apply negb_true_iff in Hc.
  destruct (ascii_dec x c) as [->|_].
  - now rewrite Ascii.eqb_refl in Hc.
  - now rewrite IH.
Qed.

(** Scenario A on any line but the first, at any indentation. *)
Lemma scenario_a_below_first_line (lines : list string) (i : nat)
    (indent : string) :
  1 <= i ->
  line_at lines i = indent +:+ scenario_a ->
  str_all is_space indent = true ->
  attr_nearby "role=" lines i = false ->
  attr_nearby "tabIndex=" lines i = false ->
  fix_line lines i
  = [line_at lines i; indent +:+ key_guard +:+ "doThing() } }}";
     role_line indent; tabindex_line indent].
Proof.
  intros Hi Hline Hind Hrole Htab.
  rewrite (fix_line_div_click lines i indent "() => doThing()" ">");
    trivial.
  - now rewrite Hrole, Htab.
  - rewrite Hline. unfold scenario_a. rewrite contains_skip; [reflexivity|].
    eapply str_all_impl; [|exact Hind]. now apply space_is_not.
Qed.

(** The detector reports a click line whose scan ends on one of its
    five tags, when no keyboard marker is near. *)
Lemma detector_reports (content : string) (i : nat) :
  i < length (split_lines content) ->
  contains "onClick=" (line_at (split_lines content) i) = true ->
  scan_tag (split_lines content) (range_down i (Nat.max 0 (i - 10)))
    = Some needs_fix ->
  keyboard_nearby (split_lines content) i = false ->
  has_onclick_without_keyboard content = true.
Proof.
  intros Hi Hc Hs Hk. unfold has_onclick_without_keyboard.
  apply existsb_exists. exists i. split; [apply in_seq; lia|].
  unfold violation_at. now rewrite Hc, Hs, Hk.
Qed.

End Patterns.

(** ** The claims *)

(** C5, as amended: when every line that holds [onClick=] has, going
    up from it (itself included), a line that holds [<button], [<a ] or
    [<a>] before any line that holds one of [<div], [<span], [<li],
    [<td], [<tr], the detector returns false. *)
Theorem C5_detector_false_below_interactive_marker (content : string) :
  clicks_below_interactive_marker (split_lines content) ->
  has_onclick_without_keyboard content = false.
Proof.
  intros H. unfold has_onclick_without_keyboard.
  apply not_true_is_false. intros Hex.
  apply existsb_exists in Hex as (i & Hi & Hv).
  apply in_seq in Hi.
  destruct (contains "onClick=" (line_at (split_lines content) i)) eqn:Ec.
  - rewrite violation_at_interactive in Hv; [discriminate|].
    apply H; [lia | exact Ec].
  - unfold violation_at in Hv. rewrite Ec in Hv. discriminate.
Qed.

Lemma C5_witness :
  clicks_below_interactive_marker (split_lines interactive_clicks)
  /\ has_onclick_without_keyboard interactive_clicks = false.
Proof.
  assert (H : clicks_below_interactive_marker
                (split_lines interactive_clicks)).
  { intros i Hi Hc. vm_compute in Hi.
    destruct i as [|[|[|[|[|[|[|i]]]]]]]; try discriminate Hc; try lia.
    - exists 1. split; [lia|]. split; [reflexivity|].
      intros k Hk. replace k with 2 by lia. reflexivity.
    - exists 3. split; [lia|]. split; [reflexivity|]. intros k Hk. lia.
    - exists 4. split; [lia|]. split; [reflexivity|].
      intros k Hk. replace k with 5 by lia. reflexivity. }
  split; [exact H|].
  exact (C5_detector_false_below_interactive_marker _ H).
Defined.

(** C5, as stated, fails: the only click handler of [child_tag_click]
    is an attribute of a [<button>], and the detector returns true,
    because the click line also holds the child's [<span] and the scan
    stops there. *)
Lemma C5_counterexample :
  only_clicks_in_button_or_link child_tag_click = true
  /\ has_onclick_without_keyboard child_tag_click = true
  /\ ~ (forall content,
          only_clicks_in_button_or_link content = true ->
          has_onclick_without_keyboard content = false).
Proof.
  split; [reflexivity|]. split; [reflexivity|].
  intros H. specialize (H child_tag_click eq_refl). discriminate H.
Qed.

(** A link whose tag name ends its line: the detector's markers [<a ]
    and [<a>] do not see it, the scan goes on to the [<div] above and
    the detector returns true, while the rewriter's pattern
    [<(button|a)\b] takes the line for a link and leaves the text as it
    is. *)
Lemma link_at_line_end_is_reported :
  only_clicks_in_button_or_link link_at_line_end = true
  /\ has_onclick_without_keyboard link_at_line_end = true
  /\ fix_onclick_violations link_at_line_end = link_at_line_end.
Proof. repeat split; vm_compute; reflexivity. Qed.

(** C8: for every input text with no occurrence of [onClick=], the
    rewriter's output equals the input exactly. *)
Theorem C8_no_click_marker_unchanged (content : string) :
  contains "onClick=" content = false ->
  fix_onclick_violations content = content.
Proof.
  intros H. unfold fix_onclick_violations.
  rewrite fix_lines_flat_map.
  rewrite (flat_map_singletons _ (line_at (split_lines content))).
  - now rewrite lines_by_index, join_split.
  - intros j Hj. apply in_seq in Hj. apply fix_line_no_click.
    destruct (split_lines_within content (line_at (split_lines content) j))
      as (a & b & Hab).
    + apply line_at_In. lia.
    + rewrite Hab in H. now apply contains_within in H.
Qed.

Lemma C8_witness :
  contains "onClick=" (text ["<div className=row>"; "  <span>hello</span>"; "</div>"; ""]) = false
  /\ fix_onclick_violations
       (text ["<div className=row>"; "  <span>hello</span>"; "</div>"; ""])
     = text ["<div className=row>"; "  <span>hello</span>"; "</div>"; ""].
Proof.
  split; [reflexivity|].
  apply C8_no_click_marker_unchanged. reflexivity.
Defined.

(** C9: for every input text, the lines of the rewriter's output contain
    the lines of the input, in order, as a subsequence: lines are only
    inserted, never deleted or altered. *)
Theorem C9_input_lines_are_subsequence (content : string) :
  sublist (split_lines content) (split_lines (fix_onclick_violations content)).
Proof. rewrite split_fix. apply fix_lines_sublist. Qed.

(** C10: [process_file] leaves the stored content of the file as it is
    whenever the detector returns false on it or the rewrite yields the
    same text; the store changes only when the detector returned true and
    the rewritten text differs, and then only at this file's path. *)
Theorem C10_process_file_write_guard
    (fs : gmap string string) (file_path content : string) :
  fs !! file_path = Some content ->
  ((has_onclick_without_keyboard content = false
    \/ fix_onclick_violations content = content) ->
   (process_file fs file_path).1 = fs)
  /\ ((process_file fs file_path).1 <> fs ->
      has_onclick_without_keyboard content = true
      /\ fix_onclick_violations content <> content
      /\ (process_file fs file_path).1
         = <[file_path := fix_onclick_violations content]> fs)
  /\ (forall other, other <> file_path ->
      (process_file fs file_path).1 !! other = fs !! other).
Proof.
  intros Hread. unfold process_file. rewrite Hread.
  destruct (has_onclick_without_keyboard content) eqn:Ed; simpl.
  - destruct (String.eqb_spec (fix_onclick_violations content) content)
      as [Heq|Hne]; simpl.
    + repeat split; try easy.
    + repeat split; trivial.
      * intros [Hd|He]; [discriminate | contradiction].
      * intros other Ho. now rewrite lookup_insert_ne.
  - repeat split; try easy.
Qed.

Lemma C10_witness :
  ({[ "page.tsx" := click_in "p" ]} : gmap string string) !! "page.tsx"
    = Some (click_in "p")
  /\ has_onclick_without_keyboard (click_in "p") = false
  /\ fix_onclick_violations (click_in "p") <> click_in "p"
  /\ (process_file {[ "page.tsx" := click_in "p" ]} "page.tsx").1
     = {[ "page.tsx" := click_in "p" ]}.
Proof.
  assert (Hread :
    ({[ "page.tsx" := click_in "p" ]} : gmap string string) !! "page.tsx"
    = Some (click_in "p")) by apply lookup_singleton_eq.
  split; [exact Hread|].
  split; [reflexivity|].
  split; [vm_compute; discriminate|].
  apply (C10_process_file_write_guard _ _ _ Hread). left. reflexivity.
Defined.

(** C1: the rewriter applied twice.  On a two-line file with one click
    handler on a [div], the first pass appends the handler, role and
    tabIndex lines below the click line; the second pass finds no
    [onKeyDown=] on the click line itself and appends the handler line
    again, so the two results differ. *)
Theorem C1_second_pass_rewrites_again :
  fix_onclick_violations (text ["return ("; plain_click])
  = text ["return ("; plain_click;
          "  " +:+ keyboard_handler "handleClick";
          role_line "  "; tabindex_line "  "]
  /\ fix_onclick_violations
       (fix_onclick_violations (text ["return ("; plain_click]))
     = text ["return ("; plain_click;
             "  " +:+ keyboard_handler "handleClick";
             "  " +:+ keyboard_handler "handleClick";
             role_line "  "; tabindex_line "  "]
  /\ fix_onclick_violations
       (fix_onclick_violations (text ["return ("; plain_click]))
     <> fix_onclick_violations (text ["return ("; plain_click]).
Proof.
  split; [vm_compute; reflexivity|].
  split; [vm_compute; reflexivity|].
  vm_compute. discriminate.
Qed.

(** C2: the detector on a click handler inside a non-interactive
    element with no keyboard marker near.  It returns true whenever the
    backward scan ends on one of its own five tag markers ([div], [span],
    [li], [td], [tr]); for [th], [p], [section], [article], [main], [nav],
    [header] and [footer] the scan finds no tag and the detector returns
    false, although the rewriter does rewrite those files. *)
Theorem C2_detector_misses_eight_tags :
  (forall content i,
     i < length (split_lines content) ->
     contains "onClick=" (line_at (split_lines content) i) = true ->
     scan_tag (split_lines content) (range_down i (Nat.max 0 (i - 10)))
       = Some needs_fix ->
     keyboard_nearby (split_lines content) i = false ->
     has_onclick_without_keyboard content = true)
  /\ Forall (fun tag => has_onclick_without_keyboard (click_in tag) = true)
            ["div"; "span"; "li"; "td"; "tr"]
  /\ Forall (fun tag =>
       has_onclick_without_keyboard (click_in tag) = false
       /\ fix_onclick_violations (click_in tag) <> click_in tag)
       ["th"; "p"; "section"; "article"; "main"; "nav"; "header"; "footer"].
Proof.
  split; [exact detector_reports|]. split.
  - repeat constructor.
  - repeat (constructor; [split; [reflexivity | vm_compute; discriminate]|]).
    constructor.
Qed.

(** C3: a line with [onClick=] and a keyboard marker on the same line.
    With [onKeyDown=] the rewriter copies the line and appends nothing;
    with [onKeyPress=] only, it appends a handler, a role and a tabIndex
    line. *)
Theorem C3_keypress_line_is_rewritten :
  (forall lines i,
     contains "onClick=" (line_at lines i) = true ->
     contains "onKeyDown=" (line_at lines i) = true ->
     fix_line lines i = [line_at lines i])
  /\ contains "onClick=" keypress_click = true
  /\ contains "onKeyPress=" keypress_click = true
  /\ fix_line ["return ("; keypress_click] 1
     = [keypress_click; keyboard_handler "f";
        role_line EmptyString; tabindex_line EmptyString].
Proof.
  split; [intros lines i _ H; now apply fix_line_keydown|].
  repeat split; vm_compute; reflexivity.
Qed.

(** C4: the lines the backward scan looks at.  From a click line [i]
    the scan visits [i], [i-1], ... and stops before line [max(0, i-10)],
    which it never examines: a click handler on line 0, a tag on line 0
    above a click line [i < 10], and a tag exactly 10 lines above the
    click line are all missed by the detector and by the rewriter, while
    a tag 9 lines above (not on line 0) is found. *)
Theorem C4_scan_stops_before_bound :
  (forall i j, In j (range_down i (Nat.max 0 (i - 10)))
               <-> Nat.max 0 (i - 10) < j <= i)
  /\ range_down 0 (Nat.max 0 (0 - 10)) = []
  /\ has_onclick_without_keyboard "<div onClick={go}>" = false
  /\ fix_onclick_violations "<div onClick={go}>" = "<div onClick={go}>"
  /\ has_onclick_without_keyboard (tall_tag [] 3) = false
  /\ fix_onclick_violations (tall_tag [] 3) = tall_tag [] 3
  /\ has_onclick_without_keyboard (tall_tag ["return ("] 9) = false
  /\ fix_onclick_violations (tall_tag ["return ("] 9) = tall_tag ["return ("] 9
  /\ has_onclick_without_keyboard (tall_tag ["return ("] 8) = true
  /\ fix_onclick_violations (tall_tag ["return ("] 8)
     <> tall_tag ["return ("] 8.
Proof.
  split; [intros i j; apply range_down_bounds|].
  repeat split; try (vm_compute; reflexivity).
  vm_compute. discriminate.
Qed.

(** C6: Scenario A.  When the line [<div onClick={() => doThing()}>]
    is the first line of the file the rewriter returns the text
    unchanged; on any later line, at any indentation and with no role or
    tabIndex attribute in the window, it appends the handler that calls
    [doThing()], the role line and the tabIndex line at the line's
    indentation. *)
Theorem C6_scenario_a_on_first_line :
  fix_onclick_violations scenario_a = scenario_a
  /\ fix_onclick_violations (text ["return ("; "    " +:+ scenario_a])
     = text ["return ("; "    " +:+ scenario_a;
             "    " +:+ key_guard +:+ "doThing() } }}";
             role_line "    "; tabindex_line "    "]
  /\ (forall lines i indent,
        1 <= i ->
        line_at lines i = indent +:+ scenario_a ->
        str_all is_space indent = true ->
        attr_nearby "role=" lines i = false ->
        attr_nearby "tabIndex=" lines i = false ->
        fix_line lines i
        = [line_at lines i; indent +:+ key_guard +:+ "doThing() } }}";
           role_line indent; tabindex_line indent]).
Proof.
  split; [vm_compute; reflexivity|].
  split; [vm_compute; reflexivity|].
  exact scenario_a_below_first_line.
Qed.

(** C7: a click handler whose braces nest two levels deep.  The
    pattern still matches, capturing the argument up to its first closing
    brace, and the rewriter appends a handler built from that piece, a
    role line and a tabIndex line.  So it is for every click line of a
    [div] below the first line: whatever braces open before the first
    closing one, the handler line is appended. *)
Theorem C7_nested_braces_are_rewritten :
  option_map group1 (re_search re_onclick nested_click)
  = Some "() => { if (a) { b() "
  /\ fix_onclick_violations (text ["return ("; nested_click])
     = text ["return ("; nested_click;
             "  " +:+ key_guard +:+ "{ if (a) { b() } }}";
             role_line "  "; tabindex_line "  "]
  /\ (forall lines i indent arg post,
        1 <= i ->
        line_at lines i
        = indent +:+ "<div onClick={" +:+ arg +:+ "}" +:+ post ->
        str_all is_space indent = true ->
        str_all not_rbrace arg = true ->
        contains "onKeyDown=" (line_at lines i) = false ->
        exists extra,
          fix_line lines i
          = line_at lines i :: (indent +:+ keyboard_handler (strip arg))
              :: extra).
Proof.
  split; [vm_compute; reflexivity|].
  split; [vm_compute; reflexivity|].
  intros lines i indent arg post Hi Hline Hind Harg Hkd.
  rewrite (fix_line_div_click lines i indent arg post); trivial.
  eexists. reflexivity.
Qed.

(** ** Further properties of the detector *)

Section DetectorFacts.

Lemma lines_without_marker (sub content : string) (i : nat) :
  contains sub content = false ->
  i < length (split_lines content) ->
  contains sub (line_at (split_lines content) i) = false.
Proof.
  intros H Hi.
  destruct (split_lines_within content (line_at (split_lines content) i))
    as (a & b & Hab); [now apply line_at_In|].
  rewrite Hab in H. now apply contains_within in H.
Qed.

Lemma range_up_bounds (a b j : nat) :
  In j (range_up a b) <-> a <= j < b.
Proof. unfold range_up. rewrite in_seq. lia. Qed.

Lemma keyboard_nearby_true (lines : list string) (i j : nat) :
  i - 5 <= j < i + 5 -> j < length lines ->
  has_keyboard_marker (line_at lines j) = true ->
  keyboard_nearby lines i = true.
Proof.
  intros Hj Hlen Hm. unfold keyboard_nearby. apply existsb_exists.
  exists j. split; [|exact Hm]. apply range_up_bounds. lia.
Qed.

Lemma keyboard_nearby_false (lines : list string) (i j : nat) :
  keyboard_nearby lines i = false ->
  i - 5 <= j < i + 5 -> j < length lines ->
  has_keyboard_marker (line_at lines j) = false.
Proof.
  intros H Hj Hlen.
  destruct (has_keyboard_marker (line_at lines j)) eqn:E; [|reflexivity].
  now rewrite (keyboard_nearby_true lines i j Hj Hlen E) in H.
Qed.

End DetectorFacts.

(** X1: a text with no occurrence of [onClick=] is never reported by
    the detector. *)
Theorem X1_detector_false_without_click (content : string) :
  contains "onClick=" content = false ->
  has_onclick_without_keyboard content = false.
Proof.
  intros H. unfold has_onclick_without_keyboard.
  apply not_true_is_false. intros Hex.
  apply existsb_exists in Hex as (i & Hi & Hv). apply in_seq in Hi.
  unfold violation_at in Hv.
  rewrite (lines_without_marker _ _ i H) in Hv by lia. discriminate.
Qed.

Lemma X1_witness :
  contains "onClick=" (text ["<div>"; "  <span>hello</span>"; "</div>"]) = false
  /\ has_onclick_without_keyboard
       (text ["<div>"; "  <span>hello</span>"; "</div>"]) = false.
Proof.
  split; [reflexivity|].
  apply X1_detector_false_without_click. reflexivity.
Defined.

(** X2: what a report of the detector means.  When it returns true
    there is a click line [i] and a line [k] at most 9 lines above it
    (and not the first line of the file) that holds one of the tag
    markers [<div], [<span], [<li], [<td], [<tr]; no line from [k] to [i]
    holds a button or link marker, and no line from [i-5] to [i+4] holds
    a keyboard marker. *)
Theorem X2_detector_report_meaning (content : string) :
  has_onclick_without_keyboard content = true ->
  exists i k,
    1 <= k <= i /\ i - k < 10 /\ i < length (split_lines content)
    /\ contains "onClick=" (line_at (split_lines content) i) = true
    /\ is_fixable_tag (line_at (split_lines content) k) = true
    /\ (forall j, k <= j <= i ->
          is_button_or_link (line_at (split_lines content) j) = false)
    /\ (forall j, i - 5 <= j < i + 5 -> j < length (split_lines content) ->
          has_keyboard_marker (line_at (split_lines content) j) = false).
Proof.
  unfold has_onclick_without_keyboard. intros H.
  apply existsb_exists in H as (i & Hi & Hv). apply in_seq in Hi.
  unfold violation_at in Hv.
  destruct (contains "onClick=" _) eqn:Ec; [|discriminate].
  destruct (scan_tag _ _) as [[|]|] eqn:Es; try discriminate.
  apply negb_true_iff in Hv.
  destruct (scan_tag_needs_fix _ _ _ Es) as (k & Hk & Hfix & Hno).
  exists i, k. repeat split; try lia; trivial.
  intros j Hj Hlen. now apply (keyboard_nearby_false _ i).
Qed.

Lemma X2_witness :
  has_onclick_without_keyboard (click_in "div") = true
  /\ exists i k,
      1 <= k <= i /\ i - k < 10 /\ i < length (split_lines (click_in "div"))
      /\ contains "onClick=" (line_at (split_lines (click_in "div")) i) = true
      /\ is_fixable_tag (line_at (split_lines (click_in "div")) k) = true
      /\ (forall j, k <= j <= i ->
            is_button_or_link (line_at (split_lines (click_in "div")) j) = false)
      /\ (forall j, i - 5 <= j < i + 5 ->
            j < length (split_lines (click_in "div")) ->
            has_keyboard_marker (line_at (split_lines (click_in "div")) j)
            = false).
Proof.
  split; [reflexivity|].
  apply X2_detector_report_meaning. reflexivity.
Defined.

(** X3: a keyboard marker ([onKeyDown=] or [onKeyPress=]) near every
    click line, from 5 lines above to 4 lines below it and in particular
    on the click line itself, keeps the detector from reporting. *)
Theorem X3_detector_false_with_keyboard_nearby (content : string) :
  (forall i, i < length (split_lines content) ->
     contains "onClick=" (line_at (split_lines content) i) = true ->
     exists j, i - 5 <= j < i + 5 /\ j < length (split_lines content)
       /\ has_keyboard_marker (line_at (split_lines content) j) = true) ->
  has_onclick_without_keyboard content = false.
Proof.
  intros H. unfold has_onclick_without_keyboard.
  apply not_true_is_false. intros Hex.
  apply existsb_exists in Hex as (i & Hi & Hv). apply in_seq in Hi.
  unfold violation_at in Hv.
  destruct (contains "onClick=" _) eqn:Ec; [|discriminate].
  destruct (H i) as (j & Hj & Hlen & Hm); [lia | exact Ec |].
  rewrite (keyboard_nearby_true _ i j Hj Hlen Hm) in Hv.
  destruct (scan_tag _ _) as [[|]|]; discriminate.
Qed.

Lemma X3_witness :
  (forall i,
     i < length (split_lines (text ["<ul>"; "<li onClick={pick}"; "  onKeyPress={pick}>"])) ->
     contains "onClick="
       (line_at (split_lines (text ["<ul>"; "<li onClick={pick}"; "  onKeyPress={pick}>"])) i) = true ->
     exists j, i - 5 <= j < i + 5
       /\ j < length (split_lines (text ["<ul>"; "<li onClick={pick}"; "  onKeyPress={pick}>"]))
       /\ has_keyboard_marker
            (line_at (split_lines (text ["<ul>"; "<li onClick={pick}"; "  onKeyPress={pick}>"])) j) = true)
  /\ has_onclick_without_keyboard
       (text ["<ul>"; "<li onClick={pick}"; "  onKeyPress={pick}>"]) = false.
Proof.
  assert (H : forall i,
     i < length (split_lines (text ["<ul>"; "<li onClick={pick}"; "  onKeyPress={pick}>"])) ->
     contains "onClick="
       (line_at (split_lines (text ["<ul>"; "<li onClick={pick}"; "  onKeyPress={pick}>"])) i) = true ->
     exists j, i - 5 <= j < i + 5
       /\ j < length (split_lines (text ["<ul>"; "<li onClick={pick}"; "  onKeyPress={pick}>"]))
       /\ has_keyboard_marker
            (line_at (split_lines (text ["<ul>"; "<li onClick={pick}"; "  onKeyPress={pick}>"])) j) = true).
  { intros i Hi Hc. vm_compute in Hi.
    destruct i as [|[|[|i]]]; try discriminate Hc; try lia.
    exists 2. split; [lia|]. split; [vm_compute; lia | reflexivity]. }
  split; [exact H|].
  exact (X3_detector_false_with_keyboard_nearby _ H).
Defined.

(** X4: a text of a single line is never reported and never rewritten,
    whatever it holds: neither scan looks at the first line of a file. *)
Theorem X4_single_line_untouched (content : string) :
  one_line content ->
  has_onclick_without_keyboard content = false
  /\ fix_onclick_violations content = content.
Proof.
  intros H. unfold has_onclick_without_keyboard, fix_onclick_violations.
  rewrite (split_one_line content H). split.
  - cbn [length seq existsb]. unfold violation_at.
    destruct (contains "onClick=" _); reflexivity.
  - unfold fix_lines. cbn [length fix_loop]. unfold fix_line.
    destruct (contains "onClick=" _ && negb _); reflexivity.
Qed.

Lemma X4_witness :
  one_line "<span onClick={go}>open</span>"
  /\ has_onclick_without_keyboard "<span onClick={go}>open</span>" = false
  /\ fix_onclick_violations "<span onClick={go}>open</span>"
     = "<span onClick={go}>open</span>".
Proof.
  split; [reflexivity|].
  apply X4_single_line_untouched. reflexivity.
Defined.

(** ** Further properties of the rewriter *)

Section RewriterFacts.

Lemma fix_line_length (lines : list string) (i : nat) :
  1 <= length (fix_line lines i) <= 4.
Proof.
  unfold fix_line.
  destruct (contains "onClick=" _ && negb _); [|simpl; lia].
  destruct (find_tag lines _) as [[|] tag_indent]; [|simpl; lia].
  destruct (re_search re_onclick _); [|simpl; lia].
  destruct (attr_nearby "role=" lines i), (attr_nearby "tabIndex=" lines i);
    simpl; lia.
Qed.

Lemma flat_map_length_bounds (f : nat -> list string) (js : list nat) :
  (forall j, 1 <= length (f j) <= 4) ->
  length js <= length (flat_map f js) <= 4 * length js.
Proof.
  intros H. induction js as [|j js IH]; simpl; [lia|].
  rewrite length_app. specialize (H j). lia.
Qed.

Lemma sublist_same_length (l1 l2 : list string) :
  sublist l1 l2 -> length l2 <= length l1 -> l1 = l2.
Proof.
  induction 1 as [|x l1 l2 Hs IH|x l1 l2 Hs IH]; simpl; intros Hlen.
  - reflexivity.
  - f_equal. apply IH. lia.
  - apply sublist_length in Hs. lia.
Qed.

Lemma join_lines_cons (l0 l1 : string) (ls : list string) :
  join_lines (l0 :: l1 :: ls) = l0 +:+ nl +:+ join_lines (l1 :: ls).
Proof. reflexivity. Qed.

Lemma join_within (ls : list string) (l : string) :
  In l ls -> exists a b, join_lines ls = a +:+ l +:+ b.
Proof.
  induction ls as [|l0 ls IH]; intros H; [easy|].
  destruct H as [->|H].
  - destruct ls as [|l1 ls].
    + exists EmptyString, EmptyString. unfold join_lines. simpl.
      now rewrite app_str_nil_r.
    + exists EmptyString. eexists. rewrite join_lines_cons. reflexivity.
  - destruct ls as [|l1 ls]; [easy|].
    destruct (IH H) as (a & b & Hab).
    exists (l0 +:+ nl +:+ a), b. rewrite join_lines_cons, Hab.
    now rewrite !app_str_assoc.
Qed.

Lemma contains_join (sub l : string) (ls : list string) :
  In l ls -> contains sub l = true -> contains sub (join_lines ls) = true.
Proof.
  intros Hin Hc. destruct (join_within ls l Hin) as (a & b & ->).
  destruct (contains sub (a +:+ l +:+ b)) eqn:E; [reflexivity|].
  apply contains_within in E. congruence.
Qed.

Lemma keyboard_handler_marked (indent_str h : string) :
  contains "onKeyDown=" (indent_str +:+ keyboard_handler h) = true.
Proof.
  unfold keyboard_handler.
  destruct (startswith "()" h || startswith "(e)" h).
  - change key_guard with ("onKeyDown=" +:+ String.substring 10 100 key_guard).
    rewrite app_str_assoc. apply contains_intro.
  - change key_guard with ("onKeyDown=" +:+ String.substring 10 100 key_guard).
    rewrite app_str_assoc. apply contains_intro.
Qed.

(** An iteration either copies the line or appends a handler line. *)
Lemma fix_line_cases (lines : list string) (i : nat) :
  fix_line lines i = [line_at lines i]
  \/ exists l, In l (fix_line lines i) /\ contains "onKeyDown=" l = true.
Proof.
  unfold fix_line.
  destruct (contains "onClick=" _ && negb _); [|now left].
  destruct (find_tag lines _) as [[|] tag_indent]; [|now left].
  destruct (re_search re_onclick _); [|now left].
  right. eexists. split; [right; left; reflexivity|].
  apply keyboard_handler_marked.
Qed.

Lemma flat_map_cases (lines : list string) (js : list nat) :
  flat_map (fix_line lines) js = map (line_at lines) js
  \/ exists l, In l (flat_map (fix_line lines) js)
       /\ contains "onKeyDown=" l = true.
Proof.
  induction js as [|j js IH]; [now left|].
  cbn [flat_map map].
  destruct (fix_line_cases lines j) as [Hj|(l & Hin & Hl)].
  - destruct IH as [IH|(l & Hin & Hl)].
    + left. now rewrite Hj, IH.
    + right. exists l. split; [|exact Hl]. apply in_or_app. now right.
  - right. exists l. split; [|exact Hl]. apply in_or_app. now left.
Qed.

Lemma fix_same_length (content : string) :
  length (split_lines (fix_onclick_violations content))
  = length (split_lines content) ->
  fix_onclick_violations content = content.
Proof.
  rewrite split_fix. intros Hlen. unfold fix_onclick_violations.
  rewrite <- (sublist_same_length _ _ (fix_lines_sublist (split_lines content)))
    by lia.
  apply join_split.
Qed.

Lemma fix_changed_has_keydown (content : string) :
  fix_onclick_violations content <> content ->
  contains "onKeyDown=" (fix_onclick_violations content) = true.
Proof.
  intros Hne. unfold fix_onclick_violations in *.
  rewrite fix_lines_flat_map in *.
  destruct (flat_map_cases (split_lines content)
              (seq 0 (length (split_lines content)))) as [Heq|(l & Hin & Hl)].
  - rewrite Heq, lines_by_index, join_split in Hne. now destruct Hne.
  - now apply (contains_join _ l).
Qed.

End RewriterFacts.

(** X5: the rewriter returns the text as it is when every line with
    [onClick=] also holds [onKeyDown=]. *)
Theorem X5_unchanged_when_keydown_on_click_lines (content : string) :
  (forall l, In l (split_lines content) ->
     contains "onClick=" l = true -> contains "onKeyDown=" l = true) ->
  fix_onclick_violations content = content.
Proof.
  intros H. unfold fix_onclick_violations.
  rewrite fix_lines_flat_map.
  rewrite (flat_map_singletons _ (line_at (split_lines content))).
  - now rewrite lines_by_index, join_split.
  - intros j Hj. apply in_seq in Hj.
    destruct (contains "onClick=" (line_at (split_lines content) j)) eqn:Ec.
    + apply fix_line_keydown. apply H; [|exact Ec]. apply line_at_In. lia.
    + now apply fix_line_no_click.
Qed.

Lemma X5_witness :
  (forall l,
     In l (split_lines (text ["<ul>"; "<li onClick={y} onKeyDown={y}>"; "</ul>"])) ->
     contains "onClick=" l = true -> contains "onKeyDown=" l = true)
  /\ fix_onclick_violations
       (text ["<ul>"; "<li onClick={y} onKeyDown={y}>"; "</ul>"])
     = text ["<ul>"; "<li onClick={y} onKeyDown={y}>"; "</ul>"].
Proof.
  assert (H : forall l,
     In l (split_lines (text ["<ul>"; "<li onClick={y} onKeyDown={y}>"; "</ul>"])) ->
     contains "onClick=" l = true -> contains "onKeyDown=" l = true).
  { intros l Hl Hc. vm_compute in Hl.
    destruct Hl as [<-|[<-|[<-|[]]]]; try discriminate Hc. reflexivity. }
  split; [exact H|].
  exact (X5_unchanged_when_keydown_on_click_lines _ H).
Defined.

(** X6: the rewriter adds at most three lines for each line of the
    input and removes none; when the number of lines is the same, the
    text is the same. *)
Theorem X6_line_count (content : string) :
  length (split_lines content)
    <= length (split_lines (fix_onclick_violations content))
    <= 4 * length (split_lines content)
  /\ (length (split_lines (fix_onclick_violations content))
      = length (split_lines content) ->
      fix_onclick_violations content = content).
Proof.
  split; [|apply fix_same_length].
  rewrite split_fix, fix_lines_flat_map.
  pose proof (flat_map_length_bounds (fix_line (split_lines content))
                (seq 0 (length (split_lines content)))
                (fix_line_length (split_lines content))) as Hb.
  rewrite length_seq in Hb. exact Hb.
Qed.

(** X7: whenever the rewriter changes a text, its output holds the
    marker [onKeyDown=]. *)
Theorem X7_changed_text_has_keydown (content : string) :
  fix_onclick_violations content <> content ->
  contains "onKeyDown=" (fix_onclick_violations content) = true.
Proof. apply fix_changed_has_keydown. Qed.

Lemma X7_witness :
  fix_onclick_violations (click_in "div") <> click_in "div"
  /\ contains "onKeyDown=" (fix_onclick_violations (click_in "div")) = true.
Proof.
  assert (H : fix_onclick_violations (click_in "div") <> click_in "div")
    by (vm_compute; discriminate).
  split; [exact H|].
  exact (X7_changed_text_has_keydown _ H).
Defined.

Section Exempt.

(** A pattern that opens with a literal finds nothing in a text
    without the literal's first character. *)
Lemma search_none (x : ascii) (s' : string) (r : regex) (s : string) :
  str_all (fun c => negb (Ascii.eqb x c)) s = true ->
  forall b, search_at (Seq (Lit (String x s')) r) b s = None.
Proof.
  induction s as [|c s IH]; intros Hs b.
  - reflexivity.
  - simpl in Hs. apply andb_true_iff in Hs as [Hc Hs].
    cbn [search_at].
    rewrite run_Seq, run_Lit, match_lit_other by now apply negb_true_iff in Hc.
    now apply IH.
Qed.

Lemma button_not_non_interactive (indent tl : string) :
  str_all is_space indent = true ->
  str_all (fun c => negb (Ascii.eqb "<" c)) tl = true ->
  re_search re_non_interactive (indent +:+ "<button" +:+ tl) = None.
Proof.
  intros Hind Htl. unfold re_search.
  assert (Hskip : exists b',
    search_at re_non_interactive None (indent +:+ "<button" +:+ tl)
    = search_at re_non_interactive b' ("<button" +:+ tl)).
  { unfold re_non_interactive. apply search_skip.
    eapply str_all_impl; [|exact Hind]. now apply space_is_not. }
  destruct Hskip as [b' ->].
  change ("<button" +:+ tl) with (String "<" ("button" +:+ tl)).
  cbn [search_at].
  replace (run re_non_interactive
             (MState b' (String "<" ("button" +:+ tl)) None) Some)
    with (@None mstate) by reflexivity.
  unfold re_non_interactive. apply search_none.
  rewrite str_all_app. now rewrite Htl.
Qed.

Lemma button_interactive (indent tl : string) :
  str_all is_space indent = true ->
  starts_outside is_word tl = true ->
  matched (re_search re_interactive (indent +:+ "<button" +:+ tl)) = true.
Proof.
  intros Hind Htl. unfold re_search.
  assert (Hskip : exists b',
    search_at re_interactive None (indent +:+ "<button" +:+ tl)
    = search_at re_interactive b' ("<button" +:+ tl)).
  { unfold re_interactive. apply search_skip.
    eapply str_all_impl; [|exact Hind]. now apply space_is_not. }
  destruct Hskip as [b' ->].
  assert (Hrun : exists m,
    run re_interactive (MState b' ("<button" +:+ tl) None) Some = Some m).
  { unfold re_interactive.
    change ("<button" +:+ tl) with ("<" +:+ "button" +:+ tl).
    rewrite run_Seq, run_Lit, (match_lit_app "<").
    rewrite run_Seq, run_Grp. cbn [alts run].
    rewrite (match_lit_app "button"). cbn [before rest before_after].
    destruct tl as [|c tl]; cbn [next_char word_at xorb].
    - replace (is_word "n") with true by reflexivity. cbn. eauto.
    - simpl in Htl. apply negb_true_iff in Htl. rewrite Htl.
      replace (is_word "n") with true by reflexivity. cbn. eauto. }
  destruct Hrun as [m Hm]. now rewrite (search_at_hit _ _ _ _ Hm).
Qed.

End Exempt.

(** X8: the rewrite of a click handler on a [div], on any line but the
    first.  With whitespace before the tag, [arg] the text between
    [onClick={] and the first closing brace after it, and no [onKeyDown=]
    on the line, the loop appends the line, then the handler built from
    [arg] at the line's indentation, then a role line unless [role=] is
    within the window, then a tabIndex line unless [tabIndex=] is. *)
Theorem X8_div_click_line_rewrite (lines : list string) (i : nat)
    (indent arg post : string) :
  1 <= i ->
  line_at lines i = indent +:+ "<div onClick={" +:+ arg +:+ "}" +:+ post ->
  str_all is_space indent = true ->
  str_all not_rbrace arg = true ->
  contains "onKeyDown=" (line_at lines i) = false ->
  fix_line lines i
  = [line_at lines i; indent +:+ keyboard_handler (strip arg)]
    ++ (if attr_nearby "role=" lines i then [] else [role_line indent])
    ++ (if attr_nearby "tabIndex=" lines i then []
        else [tabindex_line indent]).
Proof. apply fix_line_div_click. Qed.

Lemma X8_witness :
  fix_line ["<ul role=list>"; "  <div onClick={select}>"] 1
  = ["  <div onClick={select}>";
     "  " +:+ keyboard_handler "select";
     tabindex_line "  "].
Proof.
  apply (X8_div_click_line_rewrite
           ["<ul role=list>"; "  <div onClick={select}>"] 1
           "  " "select" ">");
    [lia | reflexivity | reflexivity | reflexivity | reflexivity].
Defined.

(** X9: a click handler on the line of its [<button] tag is left alone.
    When the line is whitespace, [<button], then text that starts
    outside a word and opens no other tag, the loop copies the line and
    appends nothing, on every line of the file. *)
Theorem X9_button_line_unchanged (lines : list string) (i : nat)
    (indent tl : string) :
  line_at lines i = indent +:+ "<button" +:+ tl ->
  str_all is_space indent = true ->
  starts_outside is_word tl = true ->
  str_all (fun c => negb (Ascii.eqb "<" c)) tl = true ->
  fix_line lines i = [line_at lines i].
Proof.
  intros Hline Hind Hword Hrest. unfold fix_line.
  destruct (contains "onClick=" _ && negb _); [|reflexivity].
  destruct i as [|i].
  - reflexivity.
  - rewrite range_down_step by lia. cbn [find_tag].
    rewrite Hline, (button_not_non_interactive indent tl Hind Hrest).
    cbn [matched]. now rewrite (button_interactive indent tl Hind Hword).
Qed.

Lemma X9_witness :
  fix_line ["<div>"; "  <button onClick={x}>"] 1 = ["  <button onClick={x}>"].
Proof.
  apply (X9_button_line_unchanged ["<div>"; "  <button onClick={x}>"] 1
           "  " " onClick={x}>");
    reflexivity.
Defined.

(** ** Further properties of process_file, find_tsx_files and main *)

Section Files.

Implicit Types fs : gmap string string.

Lemma process_file_other fs (file_path other : string) :
  other <> file_path ->
  (process_file fs file_path).1 !! other = fs !! other.
Proof.
  intros Hne. unfold process_file.
  destruct (fs !! file_path) as [content|]; [|reflexivity].
  destruct (negb (has_onclick_without_keyboard content)); [reflexivity|].
  destruct (negb (String.eqb _ content)); [|reflexivity].
  simpl. now rewrite lookup_insert_ne.
Qed.

(** The outcome for a file depends on that file's content alone. *)
Lemma process_file_local fs1 fs2 (file_path : string) :
  fs1 !! file_path = fs2 !! file_path ->
  (process_file fs1 file_path).2 = (process_file fs2 file_path).2
  /\ (process_file fs1 file_path).1 !! file_path
     = (process_file fs2 file_path).1 !! file_path.
Proof.
  intros H. unfold process_file. rewrite H.
  destruct (fs2 !! file_path) as [content|] eqn:E;
    [|simpl; split; congruence].
  destruct (negb (has_onclick_without_keyboard content));
    [simpl; split; congruence|].
  destruct (negb (String.eqb _ content)); [|simpl; split; congruence].
  simpl. now rewrite !lookup_insert_eq.
Qed.

Lemma process_file_dom fs (file_path : string) :
  dom (process_file fs file_path).1 = dom fs.
Proof.
  unfold process_file.
  destruct (fs !! file_path) as [content|] eqn:E; [|reflexivity].
  destruct (negb (has_onclick_without_keyboard content)); [reflexivity|].
  destruct (negb (String.eqb _ content)); [|reflexivity].
  simpl. rewrite dom_insert_L. apply elem_of_dom_2 in E.
  apply subseteq_union_1_L. now apply singleton_subseteq_l.
Qed.

Lemma main_loop_other (files : list string) :
  forall fs fixed_count printed other,
    ~ In other files ->
    (main_loop fs files fixed_count printed).1 !! other = fs !! other.
Proof.
  induction files as [|q files IH]; intros fs c out other Hnot; [reflexivity|].
  cbn [main_loop].
  pose proof (process_file_other fs q other) as Ho.
  destruct (process_file fs q) as [fs1 [w msg]]. simpl in Ho.
  destruct w; rewrite IH by (intros Hin; apply Hnot; now right);
    apply Ho; intros ->; apply Hnot; now left.
Qed.

Lemma main_loop_dom (files : list string) :
  forall fs fixed_count printed,
    dom (main_loop fs files fixed_count printed).1 = dom fs.
Proof.
  induction files as [|q files IH]; intros fs c out; [reflexivity|].
  cbn [main_loop]. pose proof (process_file_dom fs q) as Hd.
  destruct (process_file fs q) as [fs1 [w msg]]. simpl in Hd.
  destruct w; now rewrite IH.
Qed.

Lemma main_loop_spec (files : list string) :
  NoDup files ->
  forall fs fixed_count printed,
    (forall p, In p files ->
       (main_loop fs files fixed_count printed).1 !! p
       = (process_file fs p).1 !! p)
    /\ (main_loop fs files fixed_count printed).2.2
       = printed ++ List.filter (fun p => (process_file fs p).2.1) files
    /\ (main_loop fs files fixed_count printed).2.1
       = fixed_count
         + length (List.filter (fun p => (process_file fs p).2.1) files).
Proof.
  induction 1 as [|q files Hq Hnd IH]; intros fs c out.
  - simpl. split; [easy|]. split; [now rewrite app_nil_r | lia].
  - cbn [main_loop List.filter].
    pose proof (process_file_other fs q) as Ho.
    destruct (process_file fs q) as [fs1 [w msg]] eqn:Eq. simpl in Ho.
    assert (Hloc : forall p, In p files ->
              (process_file fs1 p).2 = (process_file fs p).2
              /\ (process_file fs1 p).1 !! p = (process_file fs p).1 !! p).
    { intros p Hp. apply process_file_local, Ho. intros ->.
      now apply list_elem_of_In in Hp. }
    assert (Hfilter :
      List.filter (fun p => (process_file fs1 p).2.1) files
      = List.filter (fun p => (process_file fs p).2.1) files).
    { apply filter_ext_in. intros p Hp. now rewrite (proj1 (Hloc p Hp)). }
    assert (Hlook : forall c' out' p, In p (q :: files) ->
      (main_loop fs1 files c' out').1 !! p = (process_file fs p).1 !! p).
    { intros c' out' p [<-|Hp].
      - rewrite main_loop_other by now rewrite <- list_elem_of_In.
        now rewrite Eq.
      - rewrite (proj1 (IH fs1 c' out') p Hp). apply Hloc, Hp. }
    simpl.
    destruct w.
    + destruct (IH fs1 (c + 1) (out ++ [q])) as (_ & Hout & Hcount).
      split; [apply Hlook|]. rewrite Hout, Hcount, Hfilter.
      split; [now rewrite <- app_assoc | simpl; lia].
    + destruct (IH fs1 c out) as (_ & Hout & Hcount).
      split; [apply Hlook|]. now rewrite Hout, Hcount, Hfilter.
Qed.

Lemma filter_sublist (f : string -> bool) (l : list string) :
  sublist (List.filter f l) l.
Proof.
  induction l as [|x l IH]; simpl; [constructor|].
  destruct (f x); now constructor.
Qed.

Lemma find_tsx_files_In (glob : string -> list string) (f : string) :
  In f (find_tsx_files glob)
  <-> (In f (glob "**/*.tsx") \/ In f (glob "**/*.ts"))
      /\ contains "node_modules" f = false
      /\ contains ".next" f = false
      /\ contains "dist" f = false.
Proof.
  unfold find_tsx_files. cbn [fold_left app]. rewrite filter_In, in_app_iff.
  rewrite !andb_true_iff, !negb_true_iff. tauto.
Qed.

Lemma main_loop_count (files : list string) :
  forall fs fixed_count printed,
    (main_loop fs files fixed_count printed).2.1 + length printed
    = fixed_count + length (main_loop fs files fixed_count printed).2.2
    /\ length (main_loop fs files fixed_count printed).2.2
       <= length printed + length files.
Proof.
  induction files as [|q files IH]; intros fs c out; cbn [main_loop].
  - simpl. lia.
  - destruct (process_file fs q) as [fs1 [w msg]]. destruct w.
    + destruct (IH fs1 (c + 1) (out ++ [q])) as [H1 H2].
      rewrite length_app in *. simpl in *. lia.
    + destruct (IH fs1 c out) as [H1 H2]. simpl. lia.
Qed.

End Files.

(** X10: the flag [process_file] returns is true exactly when it
    replaced the content of the file, and the message is then [Fixed];
    every other outcome, a file that cannot be read included, leaves the
    tree as it was. *)
Theorem X10_was_fixed_iff_written
    (fs : gmap string string) (file_path : string) :
  ((process_file fs file_path).2.1 = true
   <-> (process_file fs file_path).1 <> fs)
  /\ ((process_file fs file_path).2.1 = true ->
      (process_file fs file_path).2.2 = "Fixed")
  /\ (fs !! file_path = None ->
      (process_file fs file_path).1 = fs
      /\ (process_file fs file_path).2.1 = false).
Proof.
  unfold process_file.
  destruct (fs !! file_path) as [content|] eqn:E.
  - destruct (has_onclick_without_keyboard content); simpl.
    + destruct (String.eqb_spec (fix_onclick_violations content) content)
        as [Heq|Hne]; simpl.
      * repeat split; try easy.
      * repeat split; try easy. intros _ Hfs.
        assert (Hl : <[file_path := fix_onclick_violations content]> fs
                     !! file_path = fs !! file_path) by now rewrite Hfs.
        rewrite lookup_insert_eq, E in Hl. congruence.
    + repeat split; try easy.
  - simpl. repeat split; try easy.
Qed.

(** X11: [process_file] never creates or deletes a file: the set of
    paths of the tree stays the same. *)
Theorem X11_process_file_keeps_paths
    (fs : gmap string string) (file_path : string) :
  dom (process_file fs file_path).1 = dom fs.
Proof. apply process_file_dom. Qed.

(** X12: what [process_file] writes.  When it reports a fix, the file
    holds the rewritten text: the lines of the old content are all there
    in their order, lines were added, and the marker [onKeyDown=] is in
    it. *)
Theorem X12_written_content
    (fs : gmap string string) (file_path content : string) :
  fs !! file_path = Some content ->
  (process_file fs file_path).2.1 = true ->
  (process_file fs file_path).1 !! file_path
    = Some (fix_onclick_violations content)
  /\ sublist (split_lines content)
             (split_lines (fix_onclick_violations content))
  /\ length (split_lines content)
     < length (split_lines (fix_onclick_violations content))
  /\ contains "onKeyDown=" (fix_onclick_violations content) = true.
Proof.
  intros Hread. unfold process_file. rewrite Hread.
  destruct (has_onclick_without_keyboard content); simpl; [|discriminate].
  destruct (String.eqb_spec (fix_onclick_violations content) content)
    as [Heq|Hne]; simpl; [discriminate|].
  intros _. split; [apply lookup_insert_eq|].
  assert (Hsub : sublist (split_lines content)
                   (split_lines (fix_onclick_violations content)))
    by (rewrite split_fix; apply fix_lines_sublist).
  split; [exact Hsub|]. split; [|now apply fix_changed_has_keydown].
  apply sublist_length in Hsub.
  destruct (Nat.eq_dec (length (split_lines (fix_onclick_violations content)))
                       (length (split_lines content))) as [Hlen|Hlen]; [|lia].
  now apply fix_same_length in Hlen.
Qed.

Lemma X12_witness :
  (process_file {[ "page.tsx" := click_in "div" ]} "page.tsx").1 !! "page.tsx"
    = Some (fix_onclick_violations (click_in "div"))
  /\ sublist (split_lines (click_in "div"))
             (split_lines (fix_onclick_violations (click_in "div")))
  /\ length (split_lines (click_in "div"))
     < length (split_lines (fix_onclick_violations (click_in "div")))
  /\ contains "onKeyDown=" (fix_onclick_violations (click_in "div")) = true.
Proof.
  apply (X12_written_content {[ "page.tsx" := click_in "div" ]} "page.tsx").
  - apply lookup_singleton_eq.
  - vm_compute. reflexivity.
Defined.

(** X13: [find_tsx_files] returns the paths found for [**/*.tsx] and
    then those found for [**/*.ts], in the order found, without every
    path that holds [node_modules], [.next] or [dist] anywhere in it,
    be it inside a longer name. *)
Theorem X13_find_tsx_files_filter (glob : string -> list string) :
  (forall f,
     In f (find_tsx_files glob)
     <-> (In f (glob "**/*.tsx") \/ In f (glob "**/*.ts"))
         /\ contains "node_modules" f = false
         /\ contains ".next" f = false
         /\ contains "dist" f = false)
  /\ sublist (find_tsx_files glob) (glob "**/*.tsx" ++ glob "**/*.ts")
  /\ (forall a b,
        ~ In (a +:+ "node_modules" +:+ b) (find_tsx_files glob)
        /\ ~ In (a +:+ ".next" +:+ b) (find_tsx_files glob)
        /\ ~ In (a +:+ "dist" +:+ b) (find_tsx_files glob)).
Proof.
  split; [apply find_tsx_files_In|]. split.
  - unfold find_tsx_files. cbn [fold_left app]. apply filter_sublist.
  - intros a b. repeat split; intros Hin;
      apply find_tsx_files_In in Hin as (_ & H1 & H2 & H3);
      rewrite contains_intro in *; discriminate.
Qed.

(** X14: the loop of [main] over files that are all different treats
    each file on its own: the content it leaves in a listed file is what
    [process_file] alone leaves there on the tree as it was at the start,
    files that are not listed keep their content, the paths printed are
    the listed files [process_file] fixes, in order, and [fixed_count] is
    their number. *)
Theorem X14_main_loop_independent
    (fs : gmap string string) (files : list string) :
  NoDup files ->
  (forall p, In p files ->
     (main_loop fs files 0 []).1 !! p = (process_file fs p).1 !! p)
  /\ (forall p, ~ In p files -> (main_loop fs files 0 []).1 !! p = fs !! p)
  /\ (main_loop fs files 0 []).2.2
     = List.filter (fun p => (process_file fs p).2.1) files
  /\ (main_loop fs files 0 []).2.1
     = length (List.filter (fun p => (process_file fs p).2.1) files).
Proof.
  intros Hnd.
  destruct (main_loop_spec files Hnd fs 0 []) as (H1 & H2 & H3).
  split; [exact H1|]. split; [intros p Hp; now apply main_loop_other|].
  split; [exact H2 | exact H3].
Qed.

Lemma X14_witness :
  ((main_loop {[ "a.tsx" := click_in "div"; "b.tsx" := click_in "p" ]}
      ["a.tsx"; "b.tsx"; "c.tsx"] 0 []).2.2
   = List.filter
       (fun p =>
          (process_file {[ "a.tsx" := click_in "div"; "b.tsx" := click_in "p" ]}
             p).2.1)
       ["a.tsx"; "b.tsx"; "c.tsx"]).
Proof.
  apply (X14_main_loop_independent
           {[ "a.tsx" := click_in "div"; "b.tsx" := click_in "p" ]}
           ["a.tsx"; "b.tsx"; "c.tsx"]).
  apply (bool_decide_unpack _). vm_compute. exact I.
Defined.

(** X15: [main] never changes a file whose path holds [node_modules],
    [.next] or [dist]. *)
Theorem X15_main_spares_excluded_paths
    (glob : string -> list string) (fs : gmap string string) (p : string) :
  contains "node_modules" p || contains ".next" p || contains "dist" p = true ->
  (main glob fs).1 !! p = fs !! p.
Proof.
  intros H. unfold main. apply main_loop_other. intros Hin.
  apply find_tsx_files_In in Hin as (_ & H1 & H2 & H3).
  rewrite H1, H2, H3 in H. discriminate.
Qed.

Lemma X15_witness :
  (main (fun _ => ["node_modules/lib/a.tsx"; "src/a.tsx"])
        {[ "node_modules/lib/a.tsx" := click_in "div";
           "src/a.tsx" := click_in "div" ]}).1 !! "node_modules/lib/a.tsx"
  = ({[ "node_modules/lib/a.tsx" := click_in "div";
        "src/a.tsx" := click_in "div" ]} : gmap string string)
      !! "node_modules/lib/a.tsx".
Proof.
  apply X15_main_spares_excluded_paths. reflexivity.
Defined.

(** X16: [main] never creates or deletes a file, and [fixed_count] is
    the number of paths it prints, at most the number of files found. *)
Theorem X16_main_count_and_paths
    (glob : string -> list string) (fs : gmap string string) :
  dom (main glob fs).1 = dom fs
  /\ (main glob fs).2.1 = length (main glob fs).2.2
  /\ (main glob fs).2.1 <= length (find_tsx_files glob).
Proof.
  unfold main. split; [apply main_loop_dom|].
  destruct (main_loop_count (find_tsx_files glob) fs 0 []) as [H1 H2].
  simpl in *. lia.
Qed.
